(** * PII-Detector: the detection-and-scoring engine of [pii_detector.py]

    A shallow embedding of class [PIIDetector] and the properties of its
    detectors, its risk scorer and its dataset analyzer.

    Conventions of the embedding.
    - A Python [str] is a [string]; one character of the model is one
      character of the Python string (column names and keywords are ASCII).
    - A Python [float] is an exact rational of [Q]: every float the detector
      builds is a quotient of two counts, one of the literals 0.9, 0.8, 0.7,
      0.0, or [20 * impact * uniqueness], and is only ever compared with
      [>] and [<=]; rounding is not modelled.
    - [None] of an [Optional[str]] is [None] of [option string].
    - A dictionary that is iterated ([pii_patterns], [column_keywords],
      [pattern_matches]) is an association list in insertion order; a
      dictionary that is only looked up ([impact_scores],
      [recommendations]) is a [gmap].
    - The regular-expression engine behind [Series.str.contains] and the
      text conversion [astype(str)] are library code: they are parameters
      of the development. *)

From Stdlib Require Import QArith Qminmax Ascii String Permutation Sorted.
From stdpp Require Import gmap strings list.

(** ** Python string primitives *)

Module PyStr.

(** [c.isspace()] on the ASCII range. *)
Definition isspace (c : ascii) : bool :=
  let n := nat_of_ascii c in
  ((9 <=? n)%nat && (n <=? 13)%nat)
  || ((28 <=? n)%nat && (n <=? 32)%nat).

(** [c.lower()] on the ASCII range. *)
Definition lower_char (c : ascii) : ascii :=
  let n := nat_of_ascii c in
  if ((65 <=? n)%nat && (n <=? 90)%nat)%bool then ascii_of_nat (n + 32) else c.

(** [s.lower()] *)
Fixpoint lower (s : string) : string :=
  match s with
  | EmptyString => EmptyString
  | String c r => String (lower_char c) (lower r)
  end.

Fixpoint lstrip (s : string) : string :=
  match s with
  | EmptyString => EmptyString
  | String c r => if isspace c then lstrip r else s
  end.

Fixpoint rstrip (s : string) : string :=
  match s with
  | EmptyString => EmptyString
  | String c r =>
      match rstrip r with
      | EmptyString => if isspace c then EmptyString else String c EmptyString
      | r' => String c r'
      end
  end.

(** [s.strip()] *)
Definition strip (s : string) : string := rstrip (lstrip s).

(** [s.startswith(p)] *)
Fixpoint startswith (p s : string) : bool :=
  match p, s with
  | EmptyString, _ => true
  | String _ _, EmptyString => false
  | String a p', String b s' => if Ascii.eqb a b then startswith p' s' else false
  end.

(** [sub in s] *)
Fixpoint contains (sub s : string) : bool :=
  startswith sub s
  || match s with
     | EmptyString => false
     | String _ r => contains sub r
     end.

(** [s.split(sep)] for a one-character separator: never the empty list. *)
Fixpoint split (sep : ascii) (s : string) : list string :=
  match s with
  | EmptyString => [EmptyString]
  | String c r =>
      if Ascii.eqb c sep then EmptyString :: split sep r
      else match split sep r with
           | h :: t => String c h :: t
           | [] => [String c EmptyString]
           end
  end.

(** [l[0]] and [l[-1]] of a list of strings; [split] never returns []. *)
Definition first (l : list string) : string := List.hd EmptyString l.
Definition last (l : list string) : string := List.last l EmptyString.

(** [s.isascii()] *)
Fixpoint isascii (s : string) : bool :=
  match s with
  | EmptyString => true
  | String c r => (nat_of_ascii c <? 128)%nat && isascii r
  end.

End PyStr.

(** ** Float comparisons, on rationals *)

(** [a > b] *)
Definition Qgtb (a b : Q) : bool := negb (Qle_bool a b).

(** [m / n] for two counts, [n] non-zero at every call. *)
Definition ratio (m n : nat) : Q := Z.of_nat m # Pos.of_nat n.

(** ** The tables of [__init__] *)

(** A PII type is the string the code uses for it. *)
Definition pii_type := string.

Definition pii_patterns : list (pii_type * string) :=
  [ ("EMAIL", "\b[A-Za-z0-9._%+-]+@[A-Za-z0-9.-]+\.[A-Z|a-z]{2,}\b");
    ("PHONE", "(?:\+?\d{1,3}[-.\s]?)?\(?\d{3}\)?[-.\s]?\d{3}[-.\s]?\d{4}\b");
    ("SSN", "\b\d{3}-\d{2}-\d{4}\b");
    ("CREDIT_CARD", "\b(?:\d{4}[-\s]?){3}\d{4}\b|\b\d{13,19}\b");
    ("IP_ADDRESS", "\b\d{1,3}\.\d{1,3}\.\d{1,3}\.\d{1,3}\b");
    ("URL", "https?://(?:www\.)?[-a-zA-Z0-9@:%._\+~#=]{1,256}\.[a-zA-Z0-9()]{1,6}\b(?:[-a-zA-Z0-9()@:%_\+.~#?&/=]*)");
    ("DATE_OF_BIRTH", "\b\d{1,2}[-/]\d{1,2}[-/]\d{2,4}\b");
    ("NATIONAL_ID", "\b[A-Z0-9]{8,12}\b");
    ("GPS_COORDINATES", "[-+]?\d{1,3}\.\d+,\s*[-+]?\d{1,3}\.\d+");
    ("IBAN", "\b[A-Z]{2}\d{2}[A-Z0-9]{4,30}\b");
    ("ADDRESS", "\d+\s+[A-Za-z\s]+(?:Street|St|Avenue|Ave|Road|Rd|Boulevard|Blvd|Drive|Dr|Lane|Ln)") ].

Definition column_keywords : list (pii_type * list string) :=
  [ ("EMAIL", ["email"; "e-mail"; "mail"; "email_address"; "e_mail"]);
    ("PHONE", ["phone"; "telephone"; "mobile"; "cell"; "contact_number";
               "phone_num"; "phone_number"]);
    ("NAME", ["name"; "firstname"; "lastname"; "first_name"; "last_name";
              "full_name"; "username"; "patient_name"; "customer_name";
              "employee_name"]);
    ("ID", ["patient_id"; "customer_id"; "employee_id"; "user_id";
            "person_id"; "id_number"; "national_id"]);
    ("DOB", ["dob"; "birth"; "birthdate"; "date_of_birth"; "birthday";
             "birth_date"]);
    ("ADDRESS", ["address"; "street"; "location"; "residence";
                 "home_address"; "street_address"; "physical_address"]);
    ("SSN", ["ssn"; "social_security"; "social_security_number"]);
    ("CREDIT_CARD", ["credit_card"; "cc"; "card_number"; "creditcard";
                     "card_num"]);
    ("GENDER", ["gender"; "sex"]);
    ("AGE", ["age"]);
    ("SALARY", ["salary"; "income"; "wage"; "compensation"; "pay"]);
    ("MEDICAL", ["medical_condition"; "diagnosis"; "medication";
                 "blood_type"; "medical"; "condition"; "disease"; "illness"]) ].

Definition impact_scores : gmap pii_type Z :=
  list_to_map
    [ ("SSN", 5%Z); ("CREDIT_CARD", 5%Z); ("NATIONAL_ID", 5%Z);
      ("MEDICAL", 5%Z); ("EMAIL", 4%Z); ("PHONE", 4%Z); ("ADDRESS", 4%Z);
      ("GPS_COORDINATES", 4%Z); ("IBAN", 4%Z); ("DATE_OF_BIRTH", 3%Z);
      ("DOB", 3%Z); ("NAME", 3%Z); ("SALARY", 3%Z); ("ID", 2%Z);
      ("AGE", 2%Z); ("GENDER", 2%Z); ("IP_ADDRESS", 2%Z); ("URL", 1%Z) ].

(** [self.impact_scores.get(pii_type, 2)] *)
Definition impact_of (t : pii_type) : Z := default 2%Z (impact_scores !! t).

(** ** [detect_column_name_heuristic] *)

Definition non_pii_keywords : list string :=
  [ "essay"; "description"; "comment"; "notes"; "text"; "content";
    "body"; "message"; "post"; "article"; "paragraph"; "statement";
    "summary"; "review"; "feedback"; "provider"; "company"; "organization";
    "department"; "title"; "category"; "type"; "status"; "role" ].

(** The condition of the exclusion loop, for one keyword. *)
Definition excludes (keyword column_name_lower : string) : bool :=
  String.eqb keyword column_name_lower
  || PyStr.contains ("_" +:+ keyword) column_name_lower
  || PyStr.contains (keyword +:+ "_") column_name_lower.

(** The two nested loops that fill [sorted_items]. *)
Definition keyword_items : list (pii_type * string) :=
  flat_map (fun '(t, keywords) => map (fun keyword => (t, keyword)) keywords)
           column_keywords.

(** [list.sort(key=lambda x: len(x[1]), reverse=True)]: Python's sort is
    stable, also with [reverse=True], which fixes the result: items of
    longer keywords first, items of equal keyword length in their order
    of insertion. *)
Fixpoint insert_by_len (x : pii_type * string) (l : list (pii_type * string))
  : list (pii_type * string) :=
  match l with
  | [] => [x]
  | y :: l' =>
      if (String.length x.2 <? String.length y.2)%nat
      then y :: insert_by_len x l'
      else x :: l
  end.

Definition sort_by_len_desc (l : list (pii_type * string))
  : list (pii_type * string) :=
  foldr insert_by_len [] l.

Definition sorted_items : list (pii_type * string) :=
  sort_by_len_desc keyword_items.

(** The matching loop over [sorted_items]. *)
Fixpoint heuristic_scan (items : list (pii_type * string))
  (column_name_lower : string) : option pii_type * Q :=
  match items with
  | [] => (None, 0%Q)
  | (t, keyword) :: rest =>
      if PyStr.contains keyword column_name_lower then
        if String.eqb keyword column_name_lower then (Some t, 0.9%Q)
        else if PyStr.contains ("_" +:+ keyword) column_name_lower
                || PyStr.contains (keyword +:+ "_") column_name_lower
        then (Some t, 0.8%Q)
        else if String.eqb keyword
                  (PyStr.last (PyStr.split "_" column_name_lower))
                || String.eqb keyword
                     (PyStr.first (PyStr.split "_" column_name_lower))
        then (Some t, 0.7%Q)
        else heuristic_scan rest column_name_lower
      else heuristic_scan rest column_name_lower
  end.

Definition detect_column_name_heuristic (column_name : string)
  : option pii_type * Q :=
  let column_name_lower := PyStr.strip (PyStr.lower column_name) in
  if existsb (fun keyword => excludes keyword column_name_lower)
       non_pii_keywords
  then (None, 0%Q)
  else heuristic_scan sorted_items column_name_lower.

(** ** The risk scorer *)

(** Python's [min(a, b)]: [b] when [b < a], else [a]. *)
Definition py_min (a b : Q) : Q := if Qgtb a b then b else a.

Definition calculate_risk_score (t : pii_type) (impact : Z) (uniqueness : Q)
  : Q :=
  let risk_score := (20 * inject_Z impact * uniqueness)%Q in
  py_min risk_score 100.

Definition categorize_risk (risk_score : Q) : string :=
  if Qle_bool risk_score 30 then "Low"
  else if Qle_bool risk_score 70 then "Medium"
  else "High".

(** ** [recommend_action] *)

Definition recommendations : gmap pii_type string :=
  list_to_map
    [ ("SSN", "Tokenization or full masking (e.g., ***-**-1234)");
      ("CREDIT_CARD",
       "Tokenization or partial masking (e.g., ****-****-****-1234)");
      ("NATIONAL_ID", "Tokenization or hashing with salt");
      ("EMAIL", "Hashing or partial masking (e.g., j***@example.com)");
      ("PHONE", "Masking last 4 digits (e.g., ***-***-1234)");
      ("ADDRESS", "Generalization to city/region level");
      ("GPS_COORDINATES", "Reduce precision to neighborhood level");
      ("DATE_OF_BIRTH", "Generalization to birth year only");
      ("DOB", "Generalization to birth year only");
      ("NAME", "Pseudonymization or tokenization");
      ("ID", "Tokenization or hashing");
      ("SALARY", "Generalization to salary ranges");
      ("MEDICAL", "Remove or encrypt; strict access control required");
      ("IBAN", "Tokenization or partial masking");
      ("IP_ADDRESS", "Remove last octet (e.g., 192.168.1.***)");
      ("URL", "Domain extraction only if needed");
      ("AGE", "Generalization to age ranges (e.g., 20-30)");
      ("GENDER", "Keep if necessary for analysis; consider aggregation") ].

Definition generic_recommendation : string :=
  "Apply appropriate anonymization technique".

(** The marker each risk category puts before the recommendation, with
    the characters of the source file. *)
Definition urgency_prefix (risk_category : string) : string :=
  if String.eqb risk_category "High" then "ðŸ”´ URGENT: "
  else if String.eqb risk_category "Medium" then "ðŸŸ¡ "
  else "ðŸŸ¢ ".

Definition recommend_action (t : pii_type) (risk_category : string) : string :=
  let base_recommendation := default generic_recommendation (recommendations !! t) in
  urgency_prefix risk_category +:+ base_recommendation.

(** ** Columns and datasets *)

(** A pandas [Series]: its declared [dtype] and its cells, a missing cell
    (NaN, None) being [None]. The [dtype] is kept by the name the test
    [dtype in ['object', 'string']] compares it with; the row of the
    report shows that name where the code prints [str(dtype)]. *)
Record Series (A : Type) := mkSeries {
  dtype : string;
  values : list (option A)
}.
Arguments mkSeries {A} _ _.
Arguments dtype {A} _.
Arguments values {A} _.

(** A [DataFrame]: its columns in order, each under its label. *)
Definition DataFrame (A : Type) := list (string * Series A).

(** One row of the report of [analyze_dataset]. The code renders
    [confidence], [uniqueness] and [risk_score] as text ([.2%], [.2%],
    [.2f]) when it builds the row; the record keeps the numbers. *)
Record Finding := mkFinding {
  f_column_name : string;
  f_pii_type : pii_type;
  f_detection_method : string;
  f_confidence : Q;
  f_impact : Z;
  f_uniqueness : Q;
  f_risk_score : Q;
  f_risk_category : string;
  f_recommended_action : string;
  f_data_type : string;
  f_unique_values : nat;
  f_null_count : nat
}.

(** [d[k] = v] and [d.get(k)] on a dictionary kept in insertion order. *)
Fixpoint dict_set {V} (d : list (string * V)) (k : string) (v : V)
  : list (string * V) :=
  match d with
  | [] => [(k, v)]
  | (k', v') :: d' =>
      if String.eqb k' k then (k', v) :: d' else (k', v') :: dict_set d' k v
  end.

Fixpoint dict_get {V} (d : list (string * V)) (k : string) : option V :=
  match d with
  | [] => None
  | (k', v') :: d' => if String.eqb k' k then Some v' else dict_get d' k
  end.

(** [max(items, key=lambda x: x[1])]: the first item of greatest value. *)
Definition max_by_value (items : list (pii_type * Q)) : option (pii_type * Q) :=
  match items with
  | [] => None
  | x :: l => Some (fold_left (fun best y => if Qgtb y.2 best.2 then y else best) l x)
  end.

Definition priority_order : list pii_type :=
  [ "CREDIT_CARD"; "SSN"; "IBAN"; "EMAIL"; "PHONE"; "IP_ADDRESS";
    "GPS_COORDINATES"; "DATE_OF_BIRTH"; "NATIONAL_ID"; "ADDRESS"; "URL" ].

(** The loop over [priority_order], with its early return. *)
Fixpoint priority_scan (order : list pii_type) (pattern_matches : list (pii_type * Q))
  : option (pii_type * Q) :=
  match order with
  | [] => None
  | t :: rest =>
      match dict_get pattern_matches t with
      | Some r => if Qgtb r 0.5 then Some (t, r) else priority_scan rest pattern_matches
      | None => priority_scan rest pattern_matches
      end
  end.

(** The combination step of [analyze_dataset]: type, confidence and
    detection method kept for a column. *)
Definition combine_detections (pattern heuristic : option pii_type * Q)
  : option pii_type * Q * string :=
  let '(pattern_type, pattern_conf) := pattern in
  let '(heuristic_type, heuristic_conf) := heuristic in
  if Qgtb pattern_conf heuristic_conf then
    (pattern_type, pattern_conf, "Pattern-Based")
  else if Qgtb heuristic_conf 0 then
    (heuristic_type, heuristic_conf, "Column Name Heuristic")
  else (None, 0%Q, "None").

(** Truth value of [pii_type] in [if pii_type:]. *)
Definition truthy (o : option pii_type) : option pii_type :=
  match o with
  | Some (String c r) => Some (String c r)
  | _ => None
  end.

Section Detector.

(** The cells of a column, the text [astype(str)] gives each, and the
    search of the regular-expression engine: [regex_search pattern text]
    is [Some true] when [pattern] occurs in [text], [Some false] when it
    does not, [None] when the engine raises. *)
Context {scalar : Type} `{EqDecision scalar}.
Variable astype_str : scalar -> string.
Variable regex_search : string -> string -> option bool.

(** [s.dropna()] *)
Definition dropna (l : list (option scalar)) : list scalar := omap id l.

(** [s.nunique()]: the number of distinct values, missing ones left out
    (pandas' default [dropna=True]). *)
Definition nunique (s : Series scalar) : nat :=
  length (remove_dups (dropna (values s))).

(** [s.isna().sum()] *)
Definition null_count (s : Series scalar) : nat :=
  length (List.filter (fun v => match v with None => true | Some _ => false end)
            (values s)).

(** [string_data.str.contains(pattern, regex=True, na=False).sum()];
    [None] when the call raises. *)
Definition str_contains_sum (pattern : string) (string_data : list string)
  : option nat :=
  (fun hits => length (List.filter (fun b : bool => b) hits))
    <$> mapM (regex_search pattern) string_data.

(** [string_data.str.len().sum()] *)
Definition total_length (string_data : list string) : nat :=
  foldr (fun s n => (String.length s + n)%nat) 0%nat string_data.

(** One turn of the loop over [pii_patterns]. *)
Definition pattern_step (string_data : list string)
  (pattern_matches : list (pii_type * Q)) (entry : pii_type * string)
  : list (pii_type * Q) :=
  match str_contains_sum entry.2 string_data with
  | None => pattern_matches
  | Some matches =>
      let match_ratio := ratio matches (length string_data) in
      if Qgtb match_ratio 0.3 then
        let sample := List.hd EmptyString string_data in
        if (200 <? String.length sample)%nat then pattern_matches
        else dict_set pattern_matches entry.1 match_ratio
      else pattern_matches
  end.

Definition detect_pattern_based (column_data : Series scalar)
  : option pii_type * Q :=
  if negb (bool_decide (dtype column_data ∈ ["object"; "string"])) then (None, 0%Q)
  else
    let string_data := map astype_str (dropna (values column_data)) in
    if (length string_data =? 0)%nat then (None, 0%Q)
    else
      let avg_length := ratio (total_length string_data) (length string_data) in
      if Qgtb avg_length 500 then (None, 0%Q)
      else
        let pattern_matches :=
          fold_left (pattern_step string_data) pii_patterns [] in
        match pattern_matches with
        | [] => (None, 0%Q)
        | _ :: _ =>
            match priority_scan priority_order pattern_matches with
            | Some (t, r) => (Some t, r)
            | None =>
                match max_by_value pattern_matches with
                | Some (t, r) => if Qgtb r 0.5 then (Some t, r) else (None, 0%Q)
                | None => (None, 0%Q)
                end
            end
        end.

Definition calculate_uniqueness (column_data : Series scalar) : Q :=
  if (length (values column_data) =? 0)%nat then 0%Q
  else
    let unique_count := nunique column_data in
    let total_count := length (values column_data) in
    ratio unique_count total_count.

(** The row built under [if pii_type:] for a column whose adopted type
    is [t]. *)
Definition build_finding (column : string) (column_data : Series scalar)
  (t : pii_type) (confidence : Q) (detection_method : string) : Finding :=
  let uniqueness := calculate_uniqueness column_data in
  let impact := impact_of t in
  let risk_score := calculate_risk_score t impact uniqueness in
  let risk_category := categorize_risk risk_score in
  let recommendation := recommend_action t risk_category in
  {| f_column_name := column;
     f_pii_type := t;
     f_detection_method := detection_method;
     f_confidence := confidence;
     f_impact := impact;
     f_uniqueness := uniqueness;
     f_risk_score := risk_score;
     f_risk_category := risk_category;
     f_recommended_action := recommendation;
     f_data_type := dtype column_data;
     f_unique_values := nunique column_data;
     f_null_count := null_count column_data |}.

(** The body of the loop of [analyze_dataset] for one column: the row it
    appends, if any. *)
Definition analyze_column (column : string) (column_data : Series scalar)
  : option Finding :=
  let '(pii, confidence, detection_method) :=
    combine_detections (detect_pattern_based column_data)
                       (detect_column_name_heuristic column) in
  match truthy pii with
  | Some t => Some (build_finding column column_data t confidence detection_method)
  | None => None
  end.

Definition analyze_dataset (df : DataFrame scalar) : list Finding :=
  fold_left
    (fun results '(column, column_data) =>
       match analyze_column column column_data with
       | Some finding => results ++ [finding]
       | None => results
       end)
    df [].

(** *** Vocabulary of the statements *)

(** The text values the pattern detector works on:
    [column_data.dropna().astype(str)]. *)
Definition string_data_of (column_data : Series scalar) : list string :=
  map astype_str (dropna (values column_data)).

(** The match ratio of a pattern over the text values, when the search
    does not raise. *)
Definition match_ratio (string_data : list string) (pattern : string)
  : option Q :=
  (fun matches => ratio matches (length string_data))
    <$> str_contains_sum pattern string_data.

(** Type [t] is an accepted candidate with match ratio [r]: the ratio of
    its pattern exceeds 0.3 and the first value is at most 200 characters
    long. *)
Definition accepted (string_data : list string) (t : pii_type) (r : Q)
  : Prop :=
  exists pattern,
    (t, pattern) ∈ pii_patterns
    /\ match_ratio string_data pattern = Some r
    /\ (0.3 < r)%Q
    /\ (String.length (List.hd EmptyString string_data) <= 200)%nat.

(** What one turn of the loop over [pii_patterns] records for an entry,
    if anything. *)
Definition candidate_of (string_data : list string) (entry : pii_type * string)
  : option (pii_type * Q) :=
  match str_contains_sum entry.2 string_data with
  | Some matches =>
      let r := ratio matches (length string_data) in
      if Qgtb r 0.3 then
        if (200 <? String.length (List.hd EmptyString string_data))%nat
        then None else Some (entry.1, r)
      else None
  | None => None
  end.

(** The uniqueness ratio when a missing value counts as one more regular
    value, in the distinct count and in the total alike. *)
Definition uniqueness_missing_as_value (column_data : Series scalar) : Q :=
  if (length (values column_data) =? 0)%nat then 0%Q
  else ratio (length (remove_dups (values column_data)))
             (length (values column_data)).

End Detector.

(** The confidence tier of a keyword against a normalized column name:
    0.9 for the whole name, 0.8 for a delimited token, 0.7 for the first
    or last underscore-delimited segment, none when it matches in none of
    these ways. *)
Definition match_strength (keyword column_name_lower : string) : option Q :=
  if String.eqb keyword column_name_lower then Some 0.9%Q
  else if PyStr.contains ("_" +:+ keyword) column_name_lower
          || PyStr.contains (keyword +:+ "_") column_name_lower
  then Some 0.8%Q
  else if String.eqb keyword (PyStr.first (PyStr.split "_" column_name_lower))
          || String.eqb keyword (PyStr.last (PyStr.split "_" column_name_lower))
  then Some 0.7%Q
  else None.

(** Items of longer keywords come first. *)
Definition longer_first (a b : pii_type * string) : Prop :=
  (String.length b.2 <= String.length a.2)%nat.

(** [column_name.lower().strip()] *)
Definition normalize (column_name : string) : string :=
  PyStr.strip (PyStr.lower column_name).

(** The exclusion loop fires on the normalized name. *)
Definition excluded (column_name_lower : string) : bool :=
  existsb (fun keyword => excludes keyword column_name_lower) non_pii_keywords.

(** "The heuristic result is dropped": the combination step does not
    keep it. *)
Definition heuristic_dropped (pattern heuristic : option pii_type * Q) : Prop :=
  (combine_detections pattern heuristic).2 <> "Column Name Heuristic".

(** ** [app.py]: the summary of the report *)

(** [len(results_df[results_df["Risk Category"] == category])] *)
Definition count_category (results_df : list Finding) (category : string) : nat :=
  length (List.filter (fun f => String.eqb (f_risk_category f) category) results_df).

(** The three metrics [high], [med], [low] of the summary. *)
Definition risk_metrics (results_df : list Finding) : nat * nat * nat :=
  (count_category results_df "High",
   count_category results_df "Medium",
   count_category results_df "Low").

Definition risk_colors : gmap string string :=
  list_to_map [ ("High", "#DC2626"); ("Medium", "#D97706"); ("Low", "#16A34A") ].

(** [risk_colors.get(cat, "#9CA3AF")], the colour of a slice of the pie
    chart. *)
Definition slice_color (cat : string) : string :=
  default "#9CA3AF" (risk_colors !! cat).

(** *** Worked examples: columns, a dataset, a search engine *)

(** Columns of text cells: [astype(str)] leaves a text cell as it is. *)
Definition text_cell (s : string) : string := s.

Definition ssn_column : Series string :=
  mkSeries "object" [Some "123-45-6789"; Some "987-65-4321"].

Definition category_column : Series string :=
  mkSeries "object" [Some "red"; Some "green"; Some "red"; Some "blue"].

Definition full_name_column : Series string :=
  mkSeries "object" [Some "Ada Lovelace"; None; Some "Alan Turing"].

Definition gappy_column : Series string :=
  mkSeries "object" [Some "a"; None].

(** Ten cells, nine of them social security numbers. *)
Definition mostly_ssn_column : Series string :=
  mkSeries "object"
    [ Some "123-45-6789"; Some "223-45-6789"; Some "323-45-6789";
      Some "423-45-6789"; Some "523-45-6789"; Some "623-45-6789";
      Some "723-45-6789"; Some "823-45-6789"; Some "923-45-6789";
      Some "unknown" ].

(** A column whose first value is a text of 240 characters. *)
Definition long_first_column : Series string :=
  mkSeries "object"
    [ Some (String.concat "" (List.repeat "123-45-6789 " 20));
      Some "123-45-6789" ].

(** A column of integers, its cells shown by their text. *)
Definition salary_column : Series string :=
  mkSeries "int64" [Some "4200"; Some "5100"; Some "4200"].

Definition example_df : DataFrame string :=
  [ ("ssn", ssn_column); ("category", category_column);
    ("full_name", full_name_column) ].

(** Social security numbers under an excluded name, and a numeric column
    under a telling one. *)
Definition audit_df : DataFrame string :=
  [ ("notes", ssn_column); ("salary", salary_column) ].

(** The rows these datasets give. *)
Definition ssn_row : Finding :=
  build_finding "ssn" ssn_column "SSN" (ratio 2 2) "Pattern-Based".

Definition full_name_row : Finding :=
  build_finding "full_name" full_name_column "NAME" 0.9%Q "Column Name Heuristic".

Definition notes_row : Finding :=
  build_finding "notes" ssn_column "SSN" (ratio 2 2) "Pattern-Based".

Definition salary_row : Finding :=
  build_finding "salary" salary_column "SALARY" 0.9%Q "Column Name Heuristic".

Definition isdigit (c : ascii) : bool :=
  let n := nat_of_ascii c in ((48 <=? n)%nat && (n <=? 57)%nat).

(** The text is one social security number, ddd-dd-dddd. *)
Definition ssn_shaped (text : string) : bool :=
  match list_ascii_of_string text with
  | [a; b; c; dash1; d; e; dash2; f; g; h; i] =>
      forallb isdigit [a; b; c; d; e; f; g; h; i]
      && Ascii.eqb dash1 "-" && Ascii.eqb dash2 "-"
  | _ => false
  end.

(** An engine that knows the SSN pattern only and finds it in a text that
    is one social security number. On the texts of the example columns it
    answers as Python's [re] does for every pattern of the library. *)
Definition ssn_only_search (pattern text : string) : option bool :=
  Some (String.eqb pattern "\b\d{3}-\d{2}-\d{4}\b" && ssn_shaped text).

(** * Properties *)

(** ** Comparisons and ratios *)

Lemma Qgtb_true (a b : Q) : Qgtb a b = true <-> (b < a)%Q.
Proof.
  unfold Qgtb. rewrite negb_true_iff. split.
  - intros Hle. apply Qnot_le_lt. intros Hab.
    apply Qle_bool_iff in Hab. congruence.
  - intros Hlt. destruct (Qle_bool a b) eqn:E; [|reflexivity].
    apply Qle_bool_iff in E. exfalso. exact (Qlt_not_le _ _ Hlt E).
Qed.

Lemma Qgtb_false (a b : Q) : Qgtb a b = false <-> (a <= b)%Q.
Proof.
  unfold Qgtb. rewrite negb_false_iff. apply Qle_bool_iff.
Qed.

Lemma Zpos_of_nat (n : nat) : n <> 0%nat -> Z.pos (Pos.of_nat n) = Z.of_nat n.
Proof.
  intros Hn. rewrite <- Znat.positive_nat_Z, Nat2Pos.id by exact Hn.
  reflexivity.
Qed.

Lemma ratio_nonneg (m n : nat) : (0 <= ratio m n)%Q.
Proof. unfold ratio, Qle. simpl. lia. Qed.

Lemma ratio_le_1 (m n : nat) : (m <= n)%nat -> (ratio m n <= 1)%Q.
Proof.
  intros Hmn. unfold ratio, Qle. simpl.
  destruct (decide (n = 0%nat)) as [->|Hn].
  - simpl. lia.
  - rewrite Zpos_of_nat by exact Hn. lia.
Qed.

Lemma ratio_zero (n : nat) : (ratio 0 n == 0)%Q.
Proof. unfold ratio, Qeq. simpl. reflexivity. Qed.

(** ** Strings *)

Lemma startswith_spec (p s : string) :
  PyStr.startswith p s = true <-> exists post, s = p +:+ post.
Proof.
  revert s. induction p as [|a p IH]; intros s; simpl.
  - split; [intros _; exists s; reflexivity | reflexivity].
  - destruct s as [|b s].
    + split; [discriminate | intros [post Hpost]; discriminate].
    + destruct (Ascii.eqb a b) eqn:E.
      * apply Ascii.eqb_eq in E. subst b. rewrite IH. split.
        -- intros [post ->]. exists post. reflexivity.
        -- intros [post Hpost]. injection Hpost as ->. exists post. reflexivity.
      * apply Ascii.eqb_neq in E. split; [discriminate|].
        intros [post Hpost]. injection Hpost as Hab _. congruence.
Qed.

(** [contains sub s] is Python's [sub in s]: [sub] occurs somewhere in [s]. *)
Lemma contains_spec (sub s : string) :
  PyStr.contains sub s = true <-> exists pre post, s = pre +:+ sub +:+ post.
Proof.
  induction s as [|c s IH].
  - simpl. rewrite orb_false_r, startswith_spec. split.
    + intros [post Hpost]. exists EmptyString, post. exact Hpost.
    + intros [pre [post Hs]]. destruct pre; [|discriminate].
      exists post. exact Hs.
  - cbn [PyStr.contains]. rewrite orb_true_iff, IH, startswith_spec. split.
    + intros [[post Hpost] | [pre [post Hs]]].
      * exists EmptyString, post. exact Hpost.
      * exists (String c pre), post. simpl. rewrite Hs. reflexivity.
    + intros [pre [post Hs]]. destruct pre as [|a pre].
      * left. exists post. exact Hs.
      * right. simpl in Hs. injection Hs as _ Hs. exists pre, post. exact Hs.
Qed.

Lemma append_assoc (a b c : string) : (a +:+ b) +:+ c = a +:+ b +:+ c.
Proof.
  induction a as [|x a IH]; [reflexivity|].
  change (String x ((a +:+ b) +:+ c) = String x (a +:+ b +:+ c)).
  rewrite IH. reflexivity.
Qed.

Lemma append_empty_r (a : string) : a +:+ EmptyString = a.
Proof.
  induction a as [|x a IH]; [reflexivity|].
  change (String x (a +:+ EmptyString) = String x a).
  rewrite IH. reflexivity.
Qed.

Lemma contains_refl (s : string) : PyStr.contains s s = true.
Proof.
  apply contains_spec. exists EmptyString, EmptyString.
  change (s = s +:+ EmptyString). rewrite append_empty_r. reflexivity.
Qed.

Lemma contains_underscore_l (keyword s : string) :
  PyStr.contains ("_" +:+ keyword) s = true -> PyStr.contains keyword s = true.
Proof.
  rewrite !contains_spec. intros [pre [post ->]].
  exists (pre +:+ "_"), post. rewrite !append_assoc. reflexivity.
Qed.

Lemma contains_underscore_r (keyword s : string) :
  PyStr.contains (keyword +:+ "_") s = true -> PyStr.contains keyword s = true.
Proof.
  rewrite !contains_spec. intros [pre [post ->]].
  exists pre, ("_" +:+ post). rewrite !append_assoc. reflexivity.
Qed.

Lemma split_nonempty (sep : ascii) (s : string) : PyStr.split sep s <> [].
Proof.
  destruct s as [|c s]; simpl; [discriminate|].
  destruct (Ascii.eqb c sep); [discriminate|].
  destruct (PyStr.split sep s); discriminate.
Qed.

(** The first segment of [s.split(sep)] starts [s]. *)
Lemma split_head_prefix (sep : ascii) (s h : string) (t : list string) :
  PyStr.split sep s = h :: t -> exists post, s = h +:+ post.
Proof.
  revert h t. induction s as [|c s IH]; intros h t E; simpl in E.
  - injection E as <- _. exists EmptyString. reflexivity.
  - destruct (Ascii.eqb c sep).
    + injection E as <- _. exists (String c s). reflexivity.
    + destruct (PyStr.split sep s) as [|h' t'] eqn:E'.
      * injection E as <- _. exists s. reflexivity.
      * injection E as <- _. destruct (IH h' t' eq_refl) as [post ->].
        exists post. reflexivity.
Qed.

Lemma contains_cons (x : string) (c : ascii) (s : string) :
  PyStr.contains x s = true -> PyStr.contains x (String c s) = true.
Proof.
  intros Hx. cbn [PyStr.contains]. rewrite Hx. apply orb_true_r.
Qed.

(** Every segment of [s.split(sep)] occurs in [s]. *)
Lemma split_segments (sep : ascii) (s x : string) :
  x ∈ PyStr.split sep s -> PyStr.contains x s = true.
Proof.
  revert x. induction s as [|c s IH]; intros x Hx.
  - simpl in Hx. apply list_elem_of_singleton in Hx. subst x. reflexivity.
  - simpl in Hx. destruct (Ascii.eqb c sep).
    + apply elem_of_cons in Hx as [-> | Hx]; [reflexivity|].
      apply contains_cons, IH, Hx.
    + destruct (PyStr.split sep s) as [|h t] eqn:E.
      * apply list_elem_of_singleton in Hx. subst x.
        exfalso. exact (split_nonempty sep s E).
      * apply elem_of_cons in Hx as [-> | Hx].
        -- destruct (split_head_prefix sep s h t E) as [post ->].
           apply contains_spec. exists EmptyString, post. reflexivity.
        -- apply contains_cons, IH. right. exact Hx.
Qed.

Lemma first_in_split (sep : ascii) (s : string) :
  PyStr.first (PyStr.split sep s) ∈ PyStr.split sep s.
Proof.
  pose proof (split_nonempty sep s) as Hne.
  destruct (PyStr.split sep s) as [|h t]; [congruence|]. left.
Qed.

Lemma last_in_list (l : list string) :
  l <> [] -> PyStr.last l ∈ l.
Proof.
  unfold PyStr.last. induction l as [|a l IH]; [congruence|]. intros _.
  destruct l as [|b l]; [left|].
  right. apply IH. discriminate.
Qed.

Lemma last_in_split (sep : ascii) (s : string) :
  PyStr.last (PyStr.split sep s) ∈ PyStr.split sep s.
Proof. apply last_in_list, split_nonempty. Qed.

(** A keyword of positive strength occurs in the name: the guard
    [keyword in column_name_lower] of the matching loop rejects no
    keyword that one of the three tiers would accept. *)
Lemma match_strength_contains (keyword n : string) (c : Q) :
  match_strength keyword n = Some c -> PyStr.contains keyword n = true.
Proof.
  unfold match_strength.
  destruct (String.eqb keyword n) eqn:E1.
  - intros _. apply String.eqb_eq in E1. subst. apply contains_refl.
  - destruct (PyStr.contains ("_" +:+ keyword) n) eqn:E2.
    + intros _. apply contains_underscore_l, E2.
    + destruct (PyStr.contains (keyword +:+ "_") n) eqn:E3.
      * intros _. apply contains_underscore_r, E3.
      * simpl.
        destruct (String.eqb keyword (PyStr.first (PyStr.split "_" n))) eqn:E4.
        -- intros _. apply String.eqb_eq in E4. rewrite E4 at 1.
           apply (split_segments "_"), first_in_split.
        -- destruct (String.eqb keyword (PyStr.last (PyStr.split "_" n))) eqn:E5;
             [|discriminate].
           intros _. apply String.eqb_eq in E5. rewrite E5 at 1.
           apply (split_segments "_"), last_in_split.
Qed.

(** One turn of the matching loop, by the strength of its keyword. *)
Lemma heuristic_scan_cons (t : pii_type) (keyword : string)
  (rest : list (pii_type * string)) (n : string) :
  heuristic_scan ((t, keyword) :: rest) n =
  match match_strength keyword n with
  | Some c => (Some t, c)
  | None => heuristic_scan rest n
  end.
Proof.
  cbn [heuristic_scan].
  destruct (match_strength keyword n) as [c|] eqn:E.
  - rewrite (match_strength_contains _ _ _ E).
    unfold match_strength in E.
    destruct (String.eqb keyword n); [congruence|].
    destruct (PyStr.contains ("_" +:+ keyword) n || PyStr.contains (keyword +:+ "_") n);
      [congruence|].
    rewrite orb_comm.
    destruct (String.eqb keyword (PyStr.first (PyStr.split "_" n))
              || String.eqb keyword (PyStr.last (PyStr.split "_" n)));
      [congruence | discriminate].
  - unfold match_strength in E.
    destruct (String.eqb keyword n); [discriminate|].
    destruct (PyStr.contains ("_" +:+ keyword) n || PyStr.contains (keyword +:+ "_") n);
      [discriminate|].
    rewrite orb_comm.
    destruct (String.eqb keyword (PyStr.first (PyStr.split "_" n))
              || String.eqb keyword (PyStr.last (PyStr.split "_" n)));
      [discriminate|].
    destruct (PyStr.contains keyword n); reflexivity.
Qed.

Lemma heuristic_scan_first (pre post : list (pii_type * string))
  (t : pii_type) (keyword n : string) (c : Q) :
  Forall (fun p => match_strength p.2 n = None) pre ->
  match_strength keyword n = Some c ->
  heuristic_scan (pre ++ (t, keyword) :: post) n = (Some t, c).
Proof.
  intros Hpre Hkw. induction Hpre as [|[t' k'] pre Hp _ IH].
  - simpl app. rewrite heuristic_scan_cons, Hkw. reflexivity.
  - simpl app. rewrite heuristic_scan_cons. simpl in Hp. rewrite Hp. exact IH.
Qed.

Lemma heuristic_scan_none (items : list (pii_type * string)) (n : string) :
  Forall (fun p => match_strength p.2 n = None) items ->
  heuristic_scan items n = (None, 0%Q).
Proof.
  intros Hall. induction Hall as [|[t k] items Hp _ IH]; [reflexivity|].
  rewrite heuristic_scan_cons. simpl in Hp. rewrite Hp. exact IH.
Qed.

(** What the matching loop can return. *)
Lemma heuristic_scan_range (items : list (pii_type * string)) (n : string) :
  heuristic_scan items n = (None, 0%Q)
  \/ exists t keyword c,
       (t, keyword) ∈ items
       /\ match_strength keyword n = Some c
       /\ heuristic_scan items n = (Some t, c).
Proof.
  induction items as [|[t k] items IH]; [left; reflexivity|].
  rewrite heuristic_scan_cons.
  destruct (match_strength k n) as [c|] eqn:E.
  - right. exists t, k, c. split; [left | split; [exact E | reflexivity]].
  - destruct IH as [IH | [t' [k' [c' [Hin [Hs Hr]]]]]]; [left; exact IH|].
    right. exists t', k', c'. split; [right; exact Hin | split; assumption].
Qed.

Lemma match_strength_values (keyword n : string) (c : Q) :
  match_strength keyword n = Some c -> c = 0.9%Q \/ c = 0.8%Q \/ c = 0.7%Q.
Proof.
  unfold match_strength.
  repeat match goal with |- context [if ?b then _ else _] => destruct b end;
    intros E; inversion E; auto.
Qed.

(** [sep.join(s.split(sep))] is [s]. *)
Lemma concat_split (sep : ascii) (s : string) :
  String.concat (String sep EmptyString) (PyStr.split sep s) = s.
Proof.
  induction s as [|c s IH]; [reflexivity|].
  cbn [PyStr.split]. pose proof (split_nonempty sep s) as Hne.
  destruct (Ascii.eqb_spec c sep) as [-> | Hc].
  - destruct (PyStr.split sep s) as [|h t]; [congruence|].
    cbn [String.concat]. cbn [String.concat] in IH. rewrite IH. reflexivity.
  - destruct (PyStr.split sep s) as [|h t]; [congruence|].
    destruct t as [|h2 t]; cbn [String.concat] in *; rewrite <- IH; reflexivity.
Qed.

Lemma concat_snoc (sep : string) (l : list string) (x : string) :
  l <> [] ->
  String.concat sep (l ++ [x]) = String.concat sep l +:+ sep +:+ x.
Proof.
  induction l as [|a l IH]; [congruence|]. intros _.
  destruct l as [|b l]; [reflexivity|].
  change (a +:+ sep +:+ String.concat sep ((b :: l) ++ [x])
          = (a +:+ sep +:+ String.concat sep (b :: l)) +:+ sep +:+ x).
  rewrite IH by discriminate. rewrite !append_assoc. reflexivity.
Qed.

(** A keyword that is the first or last segment of the name, and not the
    whole name, is a delimited token of it: the 0.7 tier of the matching
    loop is never the one that answers. *)
Lemma segment_is_token (keyword n : string) :
  keyword <> n ->
  keyword = PyStr.first (PyStr.split "_" n)
  \/ keyword = PyStr.last (PyStr.split "_" n) ->
  PyStr.contains ("_" +:+ keyword) n = true
  \/ PyStr.contains (keyword +:+ "_") n = true.
Proof.
  intros Hne Hseg. pose proof (concat_split "_" n) as Hjoin.
  pose proof (split_nonempty "_" n) as Hnil.
  destruct Hseg as [Hfirst | Hlast].
  - right. destruct (PyStr.split "_" n) as [|h t]; [congruence|].
    cbn in Hfirst. subst h. destruct t as [|h2 t].
    + cbn in Hjoin. congruence.
    + apply contains_spec. exists EmptyString, (String.concat "_" (h2 :: t)).
      rewrite <- Hjoin at 1. cbn [String.concat].
      change (keyword +:+ "_" +:+ String.concat "_" (h2 :: t)
              = (keyword +:+ "_") +:+ String.concat "_" (h2 :: t)).
      rewrite append_assoc. reflexivity.
  - left. destruct (exists_last Hnil) as (l & x & Hl). rewrite Hl in *.
    unfold PyStr.last in Hlast. rewrite List.last_last in Hlast. subst x.
    destruct l as [|a l].
    + cbn in Hjoin. congruence.
    + rewrite concat_snoc in Hjoin by discriminate.
      apply contains_spec. exists (String.concat "_" (a :: l)), EmptyString.
      rewrite <- Hjoin at 1. rewrite append_empty_r. reflexivity.
Qed.

Lemma segment_tier_unreachable (keyword n : string) :
  match_strength keyword n <> Some 0.7%Q.
Proof.
  unfold match_strength.
  destruct (String.eqb_spec keyword n) as [Heq | Hne]; [discriminate|].
  destruct (PyStr.contains ("_" +:+ keyword) n || PyStr.contains (keyword +:+ "_") n)
    eqn:Etoken; [discriminate|].
  destruct (String.eqb keyword (PyStr.first (PyStr.split "_" n))
            || String.eqb keyword (PyStr.last (PyStr.split "_" n))) eqn:Eseg;
    [|discriminate].
  exfalso. apply orb_true_iff in Eseg. rewrite !String.eqb_eq in Eseg.
  destruct (segment_is_token keyword n Hne Eseg) as [H | H];
    rewrite H in Etoken; [discriminate|].
  rewrite orb_true_r in Etoken. discriminate.
Qed.

(** ** The sort of the keyword items *)

Lemma insert_by_len_perm (x : pii_type * string) (l : list (pii_type * string)) :
  Permutation (x :: l) (insert_by_len x l).
Proof.
  induction l as [|y l IH]; simpl; [reflexivity|].
  destruct (String.length x.2 <? String.length y.2)%nat; [|reflexivity].
  rewrite perm_swap. apply perm_skip, IH.
Qed.

Lemma sort_by_len_desc_perm (l : list (pii_type * string)) :
  Permutation l (sort_by_len_desc l).
Proof.
  unfold sort_by_len_desc. induction l as [|x l IH]; simpl; [reflexivity|].
  rewrite <- insert_by_len_perm. apply perm_skip, IH.
Qed.

Lemma insert_by_len_sorted (x : pii_type * string) (l : list (pii_type * string)) :
  StronglySorted longer_first l -> StronglySorted longer_first (insert_by_len x l).
Proof.
  induction 1 as [|y l Hl IH Hy]; simpl.
  - repeat constructor.
  - destruct (String.length x.2 <? String.length y.2)%nat eqn:E.
    + apply Nat.ltb_lt in E. constructor; [exact IH|].
      rewrite <- insert_by_len_perm. constructor; [|exact Hy].
      unfold longer_first. lia.
    + apply Nat.ltb_ge in E. constructor; [constructor; assumption|].
      constructor; [exact E|].
      eapply Forall_impl; [exact Hy|]. unfold longer_first. intros z Hz. lia.
Qed.

Lemma sort_by_len_desc_sorted (l : list (pii_type * string)) :
  StronglySorted longer_first (sort_by_len_desc l).
Proof.
  unfold sort_by_len_desc. induction l as [|x l IH]; simpl.
  - constructor.
  - apply insert_by_len_sorted, IH.
Qed.

(** The sort is stable: items of one keyword length keep their order. *)
Lemma insert_by_len_stable (n : nat) (x : pii_type * string)
  (l : list (pii_type * string)) :
  List.filter (fun p => String.length p.2 =? n)%nat (insert_by_len x l)
  = List.filter (fun p => String.length p.2 =? n)%nat (x :: l).
Proof.
  induction l as [|y l IH]; [reflexivity|].
  cbn [insert_by_len].
  destruct (String.length x.2 <? String.length y.2)%nat eqn:E; [|reflexivity].
  apply Nat.ltb_lt in E.
  cbn [List.filter] in *. rewrite IH.
  destruct (String.length x.2 =? n)%nat eqn:Ex;
    destruct (String.length y.2 =? n)%nat eqn:Ey; try reflexivity.
  apply Nat.eqb_eq in Ex, Ey. lia.
Qed.

Lemma sort_by_len_desc_stable (n : nat) (l : list (pii_type * string)) :
  List.filter (fun p => String.length p.2 =? n)%nat (sort_by_len_desc l)
  = List.filter (fun p => String.length p.2 =? n)%nat l.
Proof.
  unfold sort_by_len_desc. induction l as [|x l IH]; [reflexivity|].
  cbn [foldr]. rewrite insert_by_len_stable. cbn [List.filter].
  rewrite IH. reflexivity.
Qed.

(** ** The name heuristic *)

Lemma detect_column_name_heuristic_unfold (column_name : string) :
  detect_column_name_heuristic column_name =
  if excluded (normalize column_name) then (None, 0%Q)
  else heuristic_scan sorted_items (normalize column_name).
Proof. reflexivity. Qed.

Lemma excluded_true (n keyword : string) :
  keyword ∈ non_pii_keywords ->
  keyword = n
  \/ PyStr.contains ("_" +:+ keyword) n = true
  \/ PyStr.contains (keyword +:+ "_") n = true ->
  excluded n = true.
Proof.
  intros Hin Hk. unfold excluded. apply existsb_exists. exists keyword.
  split; [apply list_elem_of_In, Hin|].
  unfold excludes. destruct Hk as [-> | [Hk | Hk]].
  - rewrite String.eqb_refl. reflexivity.
  - rewrite Hk, orb_true_r. reflexivity.
  - rewrite Hk, orb_true_r. reflexivity.
Qed.

(** The heuristic returns no type, or a type of the keyword library with
    one of the three tier confidences. *)
Lemma detect_column_name_heuristic_range (column_name : string) :
  detect_column_name_heuristic column_name = (None, 0%Q)
  \/ exists t keyword c,
       (t, keyword) ∈ sorted_items
       /\ (c = 0.9%Q \/ c = 0.8%Q \/ c = 0.7%Q)
       /\ detect_column_name_heuristic column_name = (Some t, c).
Proof.
  rewrite detect_column_name_heuristic_unfold.
  destruct (excluded (normalize column_name)); [left; reflexivity|].
  destruct (heuristic_scan_range sorted_items (normalize column_name))
    as [Hn | [t [k [c [Hin [Hs Hr]]]]]]; [left; exact Hn|].
  right. exists t, k, c. split; [exact Hin|]. split; [|exact Hr].
  eapply match_strength_values, Hs.
Qed.

(** C5. For every column name the heuristic works on the (PII type,
    keyword) pairs of the keyword library sorted by keyword length,
    longest first, and, once the exclusion list has let the normalized
    name through, returns the first pair whose keyword matches, with the
    confidence of its tier: 0.9 when the keyword is the whole name, 0.8
    when it is a delimited token, 0.7 when it is the first or last
    underscore-delimited segment; it returns no detection when no pair
    matches. For "employee_id" the pair found is ("ID", "employee_id"). *)
Theorem name_heuristic_first_match (column_name : string) :
  Permutation keyword_items sorted_items
  /\ StronglySorted longer_first sorted_items
  /\ (excluded (normalize column_name) = false ->
      (forall pre t keyword post c,
          sorted_items = pre ++ (t, keyword) :: post ->
          Forall (fun p => match_strength p.2 (normalize column_name) = None) pre ->
          match_strength keyword (normalize column_name) = Some c ->
          detect_column_name_heuristic column_name = (Some t, c))
      /\ (Forall (fun p => match_strength p.2 (normalize column_name) = None)
                 sorted_items ->
          detect_column_name_heuristic column_name = (None, 0%Q)))
  /\ (forall keyword,
        let n := normalize column_name in
        let token := PyStr.contains ("_" +:+ keyword) n
                     || PyStr.contains (keyword +:+ "_") n in
        let segment := String.eqb keyword (PyStr.first (PyStr.split "_" n))
                       || String.eqb keyword (PyStr.last (PyStr.split "_" n)) in
        (keyword = n -> match_strength keyword n = Some 0.9%Q)
        /\ (keyword <> n -> token = true -> match_strength keyword n = Some 0.8%Q)
        /\ (keyword <> n -> token = false -> segment = true ->
            match_strength keyword n = Some 0.7%Q)
        /\ (keyword <> n -> token = false -> segment = false ->
            match_strength keyword n = None))
  /\ (exists pre post,
        sorted_items = pre ++ ("ID", "employee_id") :: post
        /\ Forall (fun p => match_strength p.2 "employee_id" = None) pre)
  /\ detect_column_name_heuristic "employee_id" = (Some "ID", 0.9%Q).
Proof.
  split; [apply sort_by_len_desc_perm|].
  split; [apply sort_by_len_desc_sorted|].
  split; [|split; [|split]].
  - intros Hex. rewrite detect_column_name_heuristic_unfold, Hex. split.
    + intros pre t keyword post c -> Hpre Hkw.
      apply heuristic_scan_first; assumption.
    + apply heuristic_scan_none.
  - intros keyword n token segment. unfold match_strength.
    fold n. fold token. fold segment.
    destruct (String.eqb_spec keyword n) as [Heq | Hne].
    + repeat split; intros; congruence.
    + repeat split; intros; try congruence.
      * destruct token; congruence.
      * destruct token; [congruence|]. destruct segment; congruence.
      * destruct token; [congruence|]. destruct segment; congruence.
  - exists (firstn 15 sorted_items), (skipn 16 sorted_items).
    split; [vm_compute; reflexivity|].
    vm_compute. repeat constructor.
  - vm_compute. reflexivity.
Qed.

(** A name the exclusion list lets through and whose first matching
    keyword is a delimited token. *)
Lemma name_heuristic_first_match_witness :
  excluded (normalize "Customer_Email ") = false
  /\ match_strength "email" (normalize "Customer_Email ") = Some 0.8%Q
  /\ detect_column_name_heuristic "Customer_Email " = (Some "EMAIL", 0.8%Q).
Proof.
  split; [vm_compute; reflexivity|]. split; [vm_compute; reflexivity|].
  destruct (name_heuristic_first_match "Customer_Email ")
    as (_ & _ & Hfirst & _).
  destruct (Hfirst ltac:(vm_compute; reflexivity)) as [Hmatch _].
  apply (Hmatch (firstn 53 sorted_items) "EMAIL" "email" (skipn 54 sorted_items)).
  - vm_compute. reflexivity.
  - vm_compute. repeat constructor.
  - vm_compute. reflexivity.
Defined.

(** C8. A column whose normalized name equals an entry of the exclusion
    list, or contains it as a delimited token, gets no detection from the
    name heuristic, whatever PII keyword its name holds; so it is for
    "description" and for "status_notes". *)
Theorem exclusion_precedence (column_name keyword : string) :
  keyword ∈ non_pii_keywords ->
  keyword = normalize column_name
  \/ PyStr.contains ("_" +:+ keyword) (normalize column_name) = true
  \/ PyStr.contains (keyword +:+ "_") (normalize column_name) = true ->
  detect_column_name_heuristic column_name = (None, 0%Q)
  /\ detect_column_name_heuristic "description" = (None, 0%Q)
  /\ detect_column_name_heuristic "status_notes" = (None, 0%Q).
Proof.
  intros Hin Hk. split; [|split; vm_compute; reflexivity].
  rewrite detect_column_name_heuristic_unfold.
  rewrite (excluded_true _ keyword Hin Hk). reflexivity.
Qed.

(** "email_type" holds the PII keyword "email" as a token, and the
    excluded keyword "type" as a token too: no detection. *)
Lemma exclusion_precedence_witness :
  match_strength "email" (normalize "Email_Type") = Some 0.8%Q
  /\ detect_column_name_heuristic "Email_Type" = (None, 0%Q).
Proof.
  split; [vm_compute; reflexivity|].
  apply (exclusion_precedence "Email_Type" "type").
  - apply list_elem_of_In. vm_compute. tauto.
  - right. left. vm_compute. reflexivity.
Defined.

(** ** The risk scorer *)

Lemma py_min_Qmin (a b : Q) : (py_min a b == Qmin a b)%Q.
Proof.
  unfold py_min. destruct (Qgtb a b) eqn:E.
  - apply Qgtb_true in E. symmetry. apply Q.min_r, Qlt_le_weak, E.
  - apply Qgtb_false in E. symmetry. apply Q.min_l, E.
Qed.

Lemma categorize_risk_low (s : Q) : (s <= 30)%Q -> categorize_risk s = "Low".
Proof.
  intros Hs. unfold categorize_risk.
  apply Qle_bool_iff in Hs. rewrite Hs. reflexivity.
Qed.

Lemma categorize_risk_medium (s : Q) :
  (30 < s)%Q -> (s <= 70)%Q -> categorize_risk s = "Medium".
Proof.
  intros Hlo Hhi. unfold categorize_risk.
  destruct (Qle_bool s 30) eqn:E.
  - apply Qle_bool_iff in E. exfalso. exact (Qlt_not_le _ _ Hlo E).
  - apply Qle_bool_iff in Hhi. rewrite Hhi. reflexivity.
Qed.

Lemma categorize_risk_high (s : Q) : (70 < s)%Q -> categorize_risk s = "High".
Proof.
  intros Hs. unfold categorize_risk.
  destruct (Qle_bool s 30) eqn:E1.
  - apply Qle_bool_iff in E1. exfalso.
    apply (Qlt_not_le _ _ Hs). eapply Qle_trans; [exact E1|]. discriminate.
  - destruct (Qle_bool s 70) eqn:E2; [|reflexivity].
    apply Qle_bool_iff in E2. exfalso. exact (Qlt_not_le _ _ Hs E2).
Qed.

(** C4. For an impact in 1..5 and a uniqueness in [0,1] the risk score is
    min(20 * impact * uniqueness, 100), it lies in [0,100], and it is 0
    when the uniqueness is 0. A score of at most 30 is Low, a score above
    30 and at most 70 is Medium, a score above 70 is High: 30 is Low, 70
    is Medium, 70.01 is High. *)
Theorem risk_score_formula_and_categories
  (t : pii_type) (impact : Z) (uniqueness : Q) :
  (1 <= impact <= 5)%Z ->
  (0 <= uniqueness)%Q -> (uniqueness <= 1)%Q ->
  (calculate_risk_score t impact uniqueness
   == Qmin (20 * inject_Z impact * uniqueness) 100)%Q
  /\ (0 <= calculate_risk_score t impact uniqueness)%Q
  /\ (calculate_risk_score t impact uniqueness <= 100)%Q
  /\ ((uniqueness == 0)%Q -> (calculate_risk_score t impact uniqueness == 0)%Q)
  /\ (forall s, (s <= 30)%Q -> categorize_risk s = "Low")
  /\ (forall s, (30 < s)%Q -> (s <= 70)%Q -> categorize_risk s = "Medium")
  /\ (forall s, (70 < s)%Q -> categorize_risk s = "High")
  /\ categorize_risk 30.0 = "Low"
  /\ categorize_risk 70.0 = "Medium"
  /\ categorize_risk 70.01 = "High".
Proof.
  intros Himpact Hlo Hhi.
  assert (Hscore : (calculate_risk_score t impact uniqueness
                    == Qmin (20 * inject_Z impact * uniqueness) 100)%Q)
    by apply py_min_Qmin.
  assert (Hpos : (0 <= 20 * inject_Z impact * uniqueness)%Q).
  { apply Qmult_le_0_compat; [|exact Hlo].
    apply Qmult_le_0_compat; [discriminate|].
    unfold Qle. simpl. lia. }
  split; [exact Hscore|].
  split; [rewrite Hscore; apply Q.min_glb; [exact Hpos | discriminate]|].
  split; [rewrite Hscore; apply Q.le_min_r|].
  split.
  { intros H0. rewrite Hscore, H0, Qmult_0_r. reflexivity. }
  split; [exact categorize_risk_low|].
  split; [exact categorize_risk_medium|].
  split; [exact categorize_risk_high|].
  repeat split; vm_compute; reflexivity.
Qed.

(** An SSN column of distinct values: 20 * 5 * 1 = 100, High. *)
Lemma risk_score_formula_and_categories_witness :
  (calculate_risk_score "SSN" 5 1 == Qmin (20 * inject_Z 5 * 1) 100)%Q
  /\ categorize_risk (calculate_risk_score "SSN" 5 1) = "High".
Proof.
  split; [|vm_compute; reflexivity].
  apply (risk_score_formula_and_categories "SSN" 5 1).
  - lia.
  - discriminate.
  - discriminate.
Defined.

(** ** Dictionaries in insertion order *)

Lemma dict_set_fresh {V} (d : list (string * V)) (k : string) (v : V) :
  dict_get d k = None -> dict_set d k v = d ++ [(k, v)].
Proof.
  induction d as [|[k' v'] d IH]; simpl; [reflexivity|].
  destruct (String.eqb k' k); [discriminate|].
  intros Hd. rewrite IH by exact Hd. reflexivity.
Qed.

Lemma dict_get_snoc_ne {V} (d : list (string * V)) (k k' : string) (v : V) :
  k <> k' -> dict_get d k' = None -> dict_get (d ++ [(k, v)]) k' = None.
Proof.
  intros Hne. induction d as [|[k0 v0] d IH]; simpl.
  - intros _. destruct (String.eqb_spec k k'); [congruence | reflexivity].
  - destruct (String.eqb k0 k'); [discriminate | exact IH].
Qed.

Lemma dict_get_elem {V} (d : list (string * V)) (k : string) (v : V) :
  dict_get d k = Some v -> (k, v) ∈ d.
Proof.
  induction d as [|[k' v'] d IH]; simpl; [discriminate|].
  destruct (String.eqb_spec k' k) as [-> | Hne].
  - intros [= ->]. left.
  - intros Hd. right. apply IH, Hd.
Qed.

Lemma dict_get_NoDup {V} (d : list (string * V)) (k : string) (v : V) :
  NoDup d.*1 -> (k, v) ∈ d -> dict_get d k = Some v.
Proof.
  induction d as [|[k' v'] d IH]; simpl.
  - intros _ Hin. inversion Hin.
  - intros Hnd Hin. apply NoDup_cons in Hnd as [Hk' Hnd].
    destruct (String.eqb_spec k' k) as [-> | Hne].
    + apply elem_of_cons in Hin as [[= ->] | Hin]; [reflexivity|].
      exfalso. apply Hk'. apply list_elem_of_fmap. exists (k, v). split; [reflexivity | exact Hin].
    + apply elem_of_cons in Hin as [[= -> ->] | Hin]; [congruence|].
      apply IH; assumption.
Qed.

Lemma max_by_value_elem (items : list (pii_type * Q)) (x : pii_type * Q) :
  max_by_value items = Some x -> x ∈ items.
Proof.
  destruct items as [|y l]; simpl; [discriminate|]. intros [= <-].
  assert (Hgen : forall best,
             fold_left (fun best y => if Qgtb y.2 best.2 then y else best) l best
             ∈ best :: l).
  { induction l as [|z l IH]; intros best; simpl; [left|].
    destruct (Qgtb z.2 best.2).
    - right. apply IH.
    - specialize (IH best). apply elem_of_cons in IH as [-> | IH].
      + left.
      + right. right. exact IH. }
  apply Hgen.
Qed.

Lemma priority_scan_first (pre post : list pii_type) (t : pii_type) (r : Q)
  (pattern_matches : list (pii_type * Q)) :
  (forall t' r', t' ∈ pre -> dict_get pattern_matches t' = Some r' -> ~ (0.5 < r')%Q) ->
  dict_get pattern_matches t = Some r ->
  (0.5 < r)%Q ->
  priority_scan (pre ++ t :: post) pattern_matches = Some (t, r).
Proof.
  intros Hpre Ht Hr. induction pre as [|t' pre IH]; simpl.
  - rewrite Ht. apply Qgtb_true in Hr. rewrite Hr. reflexivity.
  - destruct (dict_get pattern_matches t') as [r'|] eqn:E.
    + destruct (Qgtb r' 0.5) eqn:Er.
      * apply Qgtb_true in Er. exfalso. apply (Hpre t' r'); [left | exact E | exact Er].
      * apply IH. intros t'' r'' Hin. apply Hpre. right. exact Hin.
    + apply IH. intros t'' r'' Hin. apply Hpre. right. exact Hin.
Qed.

Lemma priority_scan_none (order : list pii_type)
  (pattern_matches : list (pii_type * Q)) :
  (forall t r, t ∈ order -> dict_get pattern_matches t = Some r -> ~ (0.5 < r)%Q) ->
  priority_scan order pattern_matches = None.
Proof.
  induction order as [|t order IH]; intros Hall; simpl; [reflexivity|].
  destruct (dict_get pattern_matches t) as [r|] eqn:E.
  - destruct (Qgtb r 0.5) eqn:Er.
    + apply Qgtb_true in Er. exfalso. apply (Hall t r); [left | exact E | exact Er].
    + apply IH. intros t' r' Hin. apply Hall. right. exact Hin.
  - apply IH. intros t' r' Hin. apply Hall. right. exact Hin.
Qed.

Lemma priority_scan_some (order : list pii_type)
  (pattern_matches : list (pii_type * Q)) (t : pii_type) (r : Q) :
  priority_scan order pattern_matches = Some (t, r) ->
  t ∈ order /\ dict_get pattern_matches t = Some r /\ (0.5 < r)%Q.
Proof.
  induction order as [|t' order IH]; simpl; [discriminate|].
  destruct (dict_get pattern_matches t') as [r'|] eqn:E.
  - destruct (Qgtb r' 0.5) eqn:Er.
    + intros [= -> ->]. apply Qgtb_true in Er. split; [left | split; assumption].
    + intros Hs. destruct (IH Hs) as (Hin & Hd & Hr).
      split; [right; exact Hin | split; assumption].
  - intros Hs. destruct (IH Hs) as (Hin & Hd & Hr).
    split; [right; exact Hin | split; assumption].
Qed.

Lemma pii_patterns_NoDup : NoDup pii_patterns.*1.
Proof. apply (bool_decide_unpack _). vm_compute. reflexivity. Qed.

(** Every type of the pattern library is in the priority order. *)
Lemma pii_patterns_in_priority_order (t : pii_type) (pattern : string) :
  (t, pattern) ∈ pii_patterns -> t ∈ priority_order.
Proof.
  intros Hin.
  assert (Hall : Forall (fun e => e.1 ∈ priority_order) pii_patterns).
  { apply (bool_decide_unpack _). vm_compute. reflexivity. }
  rewrite Forall_forall in Hall. apply (Hall (t, pattern)), Hin.
Qed.

Lemma priority_order_nonempty_names (t : pii_type) :
  t ∈ priority_order -> truthy (Some t) = Some t.
Proof.
  intros Hin.
  assert (Hall : Forall (fun t => truthy (Some t) = Some t) priority_order).
  { vm_compute. repeat constructor. }
  rewrite Forall_forall in Hall. apply Hall, Hin.
Qed.

Lemma sorted_items_nonempty_names (t : pii_type) (keyword : string) :
  (t, keyword) ∈ sorted_items -> truthy (Some t) = Some t.
Proof.
  intros Hin.
  assert (Hall : Forall (fun e => truthy (Some e.1) = Some e.1) sorted_items).
  { vm_compute. repeat constructor. }
  rewrite Forall_forall in Hall. apply (Hall (t, keyword)), Hin.
Qed.

(** ** The pattern detector *)

Section DetectorProperties.

Context {scalar : Type} `{EqDecision scalar}.
Variable astype_str : scalar -> string.
Variable regex_search : string -> string -> option bool.

Local Abbreviation detect_pattern := (detect_pattern_based astype_str regex_search).
Local Abbreviation text_of := (string_data_of astype_str).
Local Abbreviation candidate := (candidate_of regex_search).
Local Abbreviation step := (pattern_step regex_search).
Local Abbreviation is_accepted := (accepted regex_search).
Local Abbreviation analyze_col := (analyze_column astype_str regex_search).
Local Abbreviation analyze := (analyze_dataset astype_str regex_search).

Lemma pattern_step_candidate (string_data : list string)
  (pattern_matches : list (pii_type * Q)) (entry : pii_type * string) :
  step string_data pattern_matches entry =
  match candidate string_data entry with
  | Some (t, r) => dict_set pattern_matches t r
  | None => pattern_matches
  end.
Proof.
  unfold pattern_step, candidate_of.
  destruct (str_contains_sum regex_search entry.2 string_data) as [m|]; [|reflexivity].
  cbv zeta. destruct (Qgtb (ratio m (length string_data)) 0.3); [|reflexivity].
  destruct (200 <? String.length (List.hd EmptyString string_data))%nat; reflexivity.
Qed.

Lemma candidate_of_type (string_data : list string) (entry : pii_type * string)
  (t : pii_type) (r : Q) :
  candidate string_data entry = Some (t, r) -> t = entry.1.
Proof.
  unfold candidate_of.
  destruct (str_contains_sum regex_search entry.2 string_data) as [m|]; [|discriminate].
  cbv zeta. destruct (Qgtb (ratio m (length string_data)) 0.3); [|discriminate].
  destruct (200 <? String.length (List.hd EmptyString string_data))%nat; [discriminate|].
  intros [= <- _]. reflexivity.
Qed.

(** The loop over [pii_patterns] records the candidates, in the order of
    the pattern library. *)
Lemma fold_pattern_step (string_data : list string)
  (l : list (pii_type * string)) (acc : list (pii_type * Q)) :
  NoDup l.*1 ->
  (forall e, e ∈ l -> dict_get acc e.1 = None) ->
  fold_left (step string_data) l acc = acc ++ omap (candidate string_data) l.
Proof.
  revert acc. induction l as [|e l IH]; intros acc Hnd Hfresh.
  - simpl. rewrite app_nil_r. reflexivity.
  - cbn [fold_left omap list_omap]. rewrite fmap_cons in Hnd.
    apply NoDup_cons in Hnd as [He Hnd].
    rewrite pattern_step_candidate.
    destruct (candidate string_data e) as [[t r]|] eqn:E.
    + pose proof (candidate_of_type _ _ _ _ E) as ->.
      rewrite dict_set_fresh by (apply Hfresh; left).
      rewrite IH; [rewrite <- app_assoc; reflexivity | exact Hnd |].
      intros e' He'. apply dict_get_snoc_ne.
      * intros Heq. apply He. rewrite Heq.
        apply list_elem_of_fmap. exists e'. split; [reflexivity | exact He'].
      * apply Hfresh. right. exact He'.
    + apply IH; [exact Hnd|]. intros e' He'. apply Hfresh. right. exact He'.
Qed.

Lemma pattern_matches_candidates (string_data : list string) :
  fold_left (step string_data) pii_patterns []
  = omap (candidate string_data) pii_patterns.
Proof.
  rewrite fold_pattern_step; [reflexivity | exact pii_patterns_NoDup |].
  intros e _. reflexivity.
Qed.

Lemma candidate_accepted (string_data : list string) (t : pii_type)
  (pattern : string) (r : Q) :
  candidate string_data (t, pattern) = Some (t, r)
  <-> match_ratio regex_search string_data pattern = Some r
      /\ (0.3 < r)%Q
      /\ (String.length (List.hd EmptyString string_data) <= 200)%nat.
Proof.
  unfold candidate_of, match_ratio. cbn [fst snd].
  destruct (str_contains_sum regex_search pattern string_data) as [m|]; cbn [fmap option_fmap option_map].
  - cbv zeta. destruct (Qgtb (ratio m (length string_data)) 0.3) eqn:E.
    + apply Qgtb_true in E.
      destruct (200 <? String.length (List.hd EmptyString string_data))%nat eqn:E2.
      * apply Nat.ltb_lt in E2. split; [discriminate|]. intros (_ & _ & Hlen). lia.
      * apply Nat.ltb_ge in E2. split.
        -- intros [= <-]. auto.
        -- intros ([= <-] & _ & _). reflexivity.
    + apply Qgtb_false in E. split; [discriminate|].
      intros ([= <-] & Hr & _). exfalso. exact (Qlt_not_le _ _ Hr E).
  - split; [discriminate|]. intros (Hn & _). discriminate.
Qed.

Lemma candidates_keys_NoDup (string_data : list string)
  (l : list (pii_type * string)) :
  NoDup l.*1 -> NoDup (omap (candidate string_data) l).*1.
Proof.
  induction l as [|e l IH]; intros Hnd; [constructor|].
  rewrite fmap_cons in Hnd. apply NoDup_cons in Hnd as [He Hnd].
  cbn [omap list_omap].
  destruct (candidate string_data e) as [[t r]|] eqn:E; [|apply IH, Hnd].
  rewrite fmap_cons. apply NoDup_cons. split; [|apply IH, Hnd].
  pose proof (candidate_of_type _ _ _ _ E) as ->. cbn [fst].
  intros Hin. apply He.
  apply list_elem_of_fmap in Hin as [[t' r'] [Ht' Hin]]. cbn [fst] in Ht'.
  apply list_elem_of_omap in Hin as [e' [He' Hc]].
  apply candidate_of_type in Hc. subst.
  apply list_elem_of_fmap. exists e'. split; [congruence | exact He'].
Qed.

(** The dictionary [pattern_matches] holds exactly the accepted
    candidates, each under its match ratio. *)
Lemma pattern_matches_accepted (string_data : list string) (t : pii_type) (r : Q) :
  (t, r) ∈ fold_left (step string_data) pii_patterns []
  <-> is_accepted string_data t r.
Proof.
  rewrite pattern_matches_candidates, list_elem_of_omap. unfold accepted. split.
  - intros [[t' pattern] [Hin Hc]].
    pose proof (candidate_of_type _ _ _ _ Hc) as Ht. cbn [fst] in Ht. subst t'.
    exists pattern. split; [exact Hin|].
    exact (proj1 (candidate_accepted _ _ _ _) Hc).
  - intros [pattern [Hin Hacc]]. exists (t, pattern). split; [exact Hin|].
    exact (proj2 (candidate_accepted _ _ _ _) Hacc).
Qed.

Lemma pattern_matches_get (string_data : list string) (t : pii_type) (r : Q) :
  dict_get (fold_left (step string_data) pii_patterns []) t = Some r
  <-> is_accepted string_data t r.
Proof.
  rewrite <- pattern_matches_accepted. split; [apply dict_get_elem|].
  apply dict_get_NoDup. rewrite pattern_matches_candidates.
  apply candidates_keys_NoDup, pii_patterns_NoDup.
Qed.

(** A match ratio is a fraction of the values: at most 1. *)
Lemma match_ratio_le_1 (string_data : list string) (pattern : string) (r : Q) :
  match_ratio regex_search string_data pattern = Some r -> (r <= 1)%Q.
Proof.
  unfold match_ratio, str_contains_sum.
  destruct (mapM (regex_search pattern) string_data) as [hits|] eqn:E;
    cbn [fmap option_fmap option_map]; [|discriminate].
  intros [= <-]. apply ratio_le_1.
  rewrite (length_mapM _ _ _ E). apply List.filter_length_le.
Qed.

Lemma accepted_in_priority_order (string_data : list string) (t : pii_type) (r : Q) :
  is_accepted string_data t r -> t ∈ priority_order /\ (r <= 1)%Q.
Proof.
  intros [pattern (Hin & Hr & _)]. split.
  - eapply pii_patterns_in_priority_order, Hin.
  - eapply match_ratio_le_1, Hr.
Qed.

Lemma detect_pattern_based_unfold (column_data : Series scalar) :
  dtype column_data ∈ ["object"; "string"] ->
  text_of column_data <> [] ->
  detect_pattern column_data =
  let string_data := text_of column_data in
  if Qgtb (ratio (total_length string_data) (length string_data)) 500
  then (None, 0%Q)
  else
    let pattern_matches := fold_left (step string_data) pii_patterns [] in
    match pattern_matches with
    | [] => (None, 0%Q)
    | _ :: _ =>
        match priority_scan priority_order pattern_matches with
        | Some (t, r) => (Some t, r)
        | None =>
            match max_by_value pattern_matches with
            | Some (t, r) => if Qgtb r 0.5 then (Some t, r) else (None, 0%Q)
            | None => (None, 0%Q)
            end
        end
    end.
Proof.
  intros Hdtype Hne. unfold detect_pattern_based, string_data_of in *.
  rewrite bool_decide_eq_true_2 by exact Hdtype. cbn [negb].
  destruct (map astype_str (dropna (values column_data))) as [|s l]; [congruence|].
  reflexivity.
Qed.

(** What the pattern detector can return: nothing with confidence 0, or
    a type of the priority order with a match ratio above 0.5. *)
Lemma detect_pattern_based_range (column_data : Series scalar) :
  detect_pattern column_data = (None, 0%Q)
  \/ exists t r,
       detect_pattern column_data = (Some t, r)
       /\ is_accepted (text_of column_data) t r
       /\ (0.5 < r)%Q.
Proof.
  destruct (decide (dtype column_data ∈ ["object"; "string"])) as [Hd | Hd].
  2:{ left. unfold detect_pattern_based.
      rewrite bool_decide_eq_false_2 by exact Hd. reflexivity. }
  destruct (decide (text_of column_data = [])) as [He | He].
  { left. unfold detect_pattern_based, string_data_of in *.
    rewrite bool_decide_eq_true_2 by exact Hd. rewrite He. reflexivity. }
  rewrite detect_pattern_based_unfold by assumption. cbv zeta.
  set (sd := text_of column_data).
  destruct (Qgtb (ratio (total_length sd) (length sd)) 500); [left; reflexivity|].
  destruct (fold_left (step sd) pii_patterns []) as [|x pm] eqn:Epm;
    [left; reflexivity|].
  rewrite <- Epm.
  destruct (priority_scan priority_order (fold_left (step sd) pii_patterns []))
    as [[t r]|] eqn:Eps.
  - right. exists t, r. apply priority_scan_some in Eps as (_ & Hd' & Hr).
    split; [reflexivity|]. split; [apply pattern_matches_get, Hd' | exact Hr].
  - destruct (max_by_value (fold_left (step sd) pii_patterns [])) as [[t r]|] eqn:Em;
      [|left; reflexivity].
    destruct (Qgtb r 0.5) eqn:Er; [|left; reflexivity].
    right. exists t, r. split; [reflexivity|]. split.
    + apply pattern_matches_accepted, max_by_value_elem, Em.
    + apply Qgtb_true, Er.
Qed.

(** C3. For a textual column with at least one value present: no
    detection when the mean text length exceeds 500, whatever the values
    hold; otherwise the first type of the priority order that is an
    accepted candidate of match ratio above 0.5, with that ratio as
    confidence; when no type of the priority order qualifies, the
    candidate of the single highest ratio if that ratio exceeds 0.5, and
    no detection with confidence 0 when no candidate exceeds 0.5. *)
Theorem pattern_detector_contract (column_data : Series scalar) :
  dtype column_data ∈ ["object"; "string"] ->
  text_of column_data <> [] ->
  let string_data := text_of column_data in
  let mean_length := ratio (total_length string_data) (length string_data) in
  ((500 < mean_length)%Q -> detect_pattern column_data = (None, 0%Q))
  /\ (~ (500 < mean_length)%Q ->
      (forall pre t post r,
          priority_order = pre ++ t :: post ->
          (forall t' r', t' ∈ pre -> is_accepted string_data t' r' -> ~ (0.5 < r')%Q) ->
          is_accepted string_data t r ->
          (0.5 < r)%Q ->
          detect_pattern column_data = (Some t, r))
      /\ ((forall t r, t ∈ priority_order -> is_accepted string_data t r ->
                       ~ (0.5 < r)%Q) ->
          forall t r,
            is_accepted string_data t r ->
            (forall t' r', is_accepted string_data t' r' -> t' <> t -> (r' < r)%Q) ->
            (0.5 < r)%Q ->
            detect_pattern column_data = (Some t, r))
      /\ ((forall t r, is_accepted string_data t r -> ~ (0.5 < r)%Q) ->
          detect_pattern column_data = (None, 0%Q))).
Proof.
  intros Hdtype Hne string_data mean_length.
  rewrite detect_pattern_based_unfold by assumption. cbv zeta.
  fold string_data. fold mean_length.
  split.
  { intros Hlong. apply Qgtb_true in Hlong. rewrite Hlong. reflexivity. }
  intros Hshort.
  assert (Hm : Qgtb mean_length 500 = false).
  { destruct (Qgtb mean_length 500) eqn:E; [|reflexivity].
    apply Qgtb_true in E. contradiction. }
  rewrite Hm. clear Hm.
  set (pm := fold_left (step string_data) pii_patterns []).
  split; [|split].
  - intros pre t post r Horder Hpre Hacc Hr.
    assert (Hget : dict_get pm t = Some r) by (apply pattern_matches_get, Hacc).
    assert (Hscan : priority_scan priority_order pm = Some (t, r)).
    { rewrite Horder. apply priority_scan_first; [|exact Hget | exact Hr].
      intros t' r' Hin Hd. apply (Hpre t' r' Hin). apply pattern_matches_get, Hd. }
    rewrite Hscan. destruct pm; [discriminate | reflexivity].
  - intros Hnone t r Hacc _ Hr. exfalso.
    apply (Hnone t r); [|exact Hacc | exact Hr].
    apply (accepted_in_priority_order string_data t r Hacc).
  - intros Hlow.
    assert (Hscan : priority_scan priority_order pm = None).
    { apply priority_scan_none. intros t r _ Hd.
      apply (Hlow t r). apply pattern_matches_get, Hd. }
    rewrite Hscan. destruct pm as [|x pm'] eqn:Epm; [reflexivity|].
    rewrite <- Epm.
    destruct (max_by_value pm) as [[t r]|] eqn:Em; [|reflexivity].
    destruct (Qgtb r 0.5) eqn:Er; [|reflexivity].
    apply Qgtb_true in Er. exfalso. apply (Hlow t r); [|exact Er].
    apply pattern_matches_accepted, max_by_value_elem, Em.
Qed.

(** X20. The fallback on the best candidate returns nothing the
    priority loop has not returned: when no type of the priority order
    qualifies, the detector reports no detection. *)
Lemma pattern_detector_no_priority_hit (column_data : Series scalar) :
  (forall t r, t ∈ priority_order -> is_accepted (text_of column_data) t r ->
               ~ (0.5 < r)%Q) ->
  detect_pattern column_data = (None, 0%Q).
Proof.
  intros Hnone.
  destruct (detect_pattern_based_range column_data)
    as [Hd | (t & r & _ & Hacc & Hr)]; [exact Hd|].
  exfalso. apply (Hnone t r); [|exact Hacc | exact Hr].
  apply (accepted_in_priority_order _ t r Hacc).
Qed.

(** ** The uniqueness calculator *)

Lemma remove_dups_length_le {A} `{EqDecision A} (l : list A) :
  (length (remove_dups l) <= length l)%nat.
Proof.
  induction l as [|x l IH]; simpl; [lia|].
  destruct (decide_rel elem_of x l); simpl; lia.
Qed.

Lemma dropna_length_le (l : list (option scalar)) :
  (length (dropna l) <= length l)%nat.
Proof.
  unfold dropna. induction l as [|[x|] l IH]; cbn [omap list_omap length].
  - constructor.
  - cbn [id length]. apply le_n_S, IH.
  - cbn [id]. apply Nat.le_le_succ_r, IH.
Qed.

Lemma elem_of_dropna (l : list (option scalar)) (x : scalar) :
  x ∈ dropna l <-> Some x ∈ l.
Proof.
  unfold dropna. rewrite list_elem_of_omap. split.
  - intros [[y|] [Hin Hy]]; simpl in Hy; [|discriminate].
    injection Hy as ->. exact Hin.
  - intros Hin. exists (Some x). split; [exact Hin | reflexivity].
Qed.

Lemma nunique_le_length (column_data : Series scalar) :
  (nunique column_data <= length (values column_data))%nat.
Proof.
  unfold nunique. etransitivity; [apply remove_dups_length_le|].
  apply dropna_length_le.
Qed.

Lemma calculate_uniqueness_range (column_data : Series scalar) :
  (0 <= calculate_uniqueness column_data)%Q
  /\ (calculate_uniqueness column_data <= 1)%Q.
Proof.
  unfold calculate_uniqueness.
  destruct (length (values column_data) =? 0)%nat.
  - split; discriminate.
  - split; [apply ratio_nonneg | apply ratio_le_1, nunique_le_length].
Qed.

(** C7, as the code has it. The uniqueness of a column is the number of
    its distinct values that are present, divided by the number of all
    its cells: a missing value counts in the total and not among the
    distinct values. The ratio lies in [0,1], and is 0 for an empty
    column. *)
Theorem uniqueness_of_present_values (column_data : Series scalar) :
  exists distinct : list scalar,
    NoDup distinct
    /\ (forall x, x ∈ distinct <-> Some x ∈ values column_data)
    /\ (values column_data <> [] ->
        calculate_uniqueness column_data
        = ratio (length distinct) (length (values column_data)))
    /\ (values column_data = [] -> calculate_uniqueness column_data = 0%Q)
    /\ (0 <= calculate_uniqueness column_data)%Q
    /\ (calculate_uniqueness column_data <= 1)%Q.
Proof.
  exists (remove_dups (dropna (values column_data))).
  split; [apply NoDup_remove_dups|].
  split; [intros x; rewrite elem_of_remove_dups; apply elem_of_dropna|].
  split; [|split; [|apply calculate_uniqueness_range]].
  - intros Hne. unfold calculate_uniqueness, nunique.
    destruct (values column_data); [congruence | reflexivity].
  - intros Hv. unfold calculate_uniqueness. rewrite Hv. reflexivity.
Qed.

(** ** The dataset analyzer *)

Lemma analyze_dataset_omap (df : DataFrame scalar) :
  analyze df = omap (fun cd => analyze_col cd.1 cd.2) df.
Proof.
  unfold analyze_dataset.
  assert (Hgen : forall acc,
             fold_left
               (fun results '(column, column_data) =>
                  match analyze_col column column_data with
                  | Some finding => results ++ [finding]
                  | None => results
                  end) df acc
             = acc ++ omap (fun cd => analyze_col cd.1 cd.2) df).
  { induction df as [|[c d] df IH]; intros acc.
    - simpl. rewrite app_nil_r. reflexivity.
    - cbn [fold_left omap list_omap fst snd].
      destruct (analyze_col c d) as [f|].
      + rewrite IH, <- app_assoc. reflexivity.
      + apply IH. }
  apply Hgen.
Qed.

Lemma heuristic_confidence_nonneg (column : string) :
  (0 <= (detect_column_name_heuristic column).2)%Q.
Proof.
  destruct (detect_column_name_heuristic_range column)
    as [-> | (t & k & c & _ & Hc & ->)]; simpl; [discriminate|].
  destruct Hc as [-> | [-> | ->]]; discriminate.
Qed.

(** The row of a column, by the branch of the combination step. *)
Lemma analyze_column_pattern (column : string) (column_data : Series scalar) :
  ((detect_column_name_heuristic column).2 < (detect_pattern column_data).2)%Q ->
  exists t,
    (detect_pattern column_data).1 = Some t
    /\ analyze_col column column_data
       = Some (build_finding column column_data t
                 (detect_pattern column_data).2 "Pattern-Based").
Proof.
  intros Hgt. unfold analyze_column, combine_detections.
  pose proof (heuristic_confidence_nonneg column) as Hh.
  destruct (detect_column_name_heuristic column) as [ht hc].
  destruct (detect_pattern_based_range column_data)
    as [Hd | (t & r & Hd & Hacc & Hr)]; rewrite Hd in *; simpl in *.
  - exfalso. exact (Qlt_not_le _ _ Hgt Hh).
  - apply Qgtb_true in Hgt. rewrite Hgt.
    exists t. split; [reflexivity|].
    rewrite (priority_order_nonempty_names t); [reflexivity|].
    apply (accepted_in_priority_order _ t r Hacc).
Qed.

Lemma analyze_column_heuristic (column : string) (column_data : Series scalar) :
  ~ ((detect_column_name_heuristic column).2 < (detect_pattern column_data).2)%Q ->
  (0 < (detect_column_name_heuristic column).2)%Q ->
  exists t,
    (detect_column_name_heuristic column).1 = Some t
    /\ analyze_col column column_data
       = Some (build_finding column column_data t
                 (detect_column_name_heuristic column).2 "Column Name Heuristic").
Proof.
  intros Hngt Hpos. unfold analyze_column, combine_detections.
  destruct (detect_pattern column_data) as [pt pc].
  destruct (detect_column_name_heuristic_range column)
    as [Hd | (t & k & c & Hin & Hc & Hd)]; rewrite Hd in *; simpl in *.
  - exfalso. exact (Qlt_irrefl _ Hpos).
  - destruct (Qgtb pc c) eqn:E; [apply Qgtb_true in E; contradiction|].
    apply Qgtb_true in Hpos. rewrite Hpos.
    exists t. split; [reflexivity|].
    rewrite (sorted_items_nonempty_names t k Hin). reflexivity.
Qed.

Lemma analyze_column_none (column : string) (column_data : Series scalar) :
  ~ ((detect_column_name_heuristic column).2 < (detect_pattern column_data).2)%Q ->
  ~ (0 < (detect_column_name_heuristic column).2)%Q ->
  analyze_col column column_data = None.
Proof.
  intros Hngt Hnpos. unfold analyze_column, combine_detections.
  destruct (detect_pattern column_data) as [pt pc].
  destruct (detect_column_name_heuristic column) as [ht hc]. simpl in *.
  destruct (Qgtb pc hc) eqn:E; [apply Qgtb_true in E; contradiction|].
  destruct (Qgtb hc 0) eqn:E0; [apply Qgtb_true in E0; contradiction|].
  reflexivity.
Qed.

(** C1. For every column of the dataset: when the pattern confidence
    strictly exceeds the heuristic confidence the row carries the pattern
    result under method "Pattern-Based"; otherwise, when the heuristic
    confidence is above 0, the row carries the heuristic result under
    method "Column Name Heuristic"; otherwise the column adds no row. The
    report is the sequence of these rows, in the order of the columns. *)
Theorem reconciliation_rule (df : DataFrame scalar) (column : string)
  (column_data : Series scalar) :
  (column, column_data) ∈ df ->
  let pattern := detect_pattern column_data in
  let heuristic := detect_column_name_heuristic column in
  ((heuristic.2 < pattern.2)%Q ->
   exists f,
     analyze_col column column_data = Some f
     /\ f ∈ analyze df
     /\ f_column_name f = column
     /\ Some (f_pii_type f) = pattern.1
     /\ f_confidence f = pattern.2
     /\ f_detection_method f = "Pattern-Based")
  /\ (~ (heuristic.2 < pattern.2)%Q -> (0 < heuristic.2)%Q ->
      exists f,
        analyze_col column column_data = Some f
        /\ f ∈ analyze df
        /\ f_column_name f = column
        /\ Some (f_pii_type f) = heuristic.1
        /\ f_confidence f = heuristic.2
        /\ f_detection_method f = "Column Name Heuristic")
  /\ (~ (heuristic.2 < pattern.2)%Q -> ~ (0 < heuristic.2)%Q ->
      analyze_col column column_data = None)
  /\ analyze df = omap (fun cd => analyze_col cd.1 cd.2) df.
Proof.
  intros Hin pattern heuristic.
  assert (Hrow : forall f, analyze_col column column_data = Some f -> f ∈ analyze df).
  { intros f Hf. rewrite analyze_dataset_omap. apply list_elem_of_omap.
    exists (column, column_data). split; [exact Hin | exact Hf]. }
  split; [|split; [|split]].
  - intros Hgt. destruct (analyze_column_pattern column column_data Hgt) as (t & Ht & Hf).
    eexists. split; [exact Hf|]. split; [apply Hrow, Hf|].
    subst pattern. rewrite Ht. repeat split; reflexivity.
  - intros Hngt Hpos.
    destruct (analyze_column_heuristic column column_data Hngt Hpos) as (t & Ht & Hf).
    eexists. split; [exact Hf|]. split; [apply Hrow, Hf|].
    subst heuristic. rewrite Ht. repeat split; reflexivity.
  - apply analyze_column_none.
  - apply analyze_dataset_omap.
Qed.

Lemma analyze_column_cases (column : string) (column_data : Series scalar)
  (f : Finding) :
  analyze_col column column_data = Some f ->
  (((detect_column_name_heuristic column).2 < (detect_pattern column_data).2)%Q
   /\ f_detection_method f = "Pattern-Based"
   /\ f_confidence f = (detect_pattern column_data).2)
  \/ ((0 < (detect_column_name_heuristic column).2)%Q
      /\ f_detection_method f = "Column Name Heuristic"
      /\ f_confidence f = (detect_column_name_heuristic column).2).
Proof.
  intros Hf.
  destruct (Qlt_le_dec (detect_column_name_heuristic column).2
                       (detect_pattern column_data).2) as [Hgt | Hle].
  - left. destruct (analyze_column_pattern column column_data Hgt) as (t & _ & Hf').
    rewrite Hf' in Hf. injection Hf as <-. auto.
  - right. apply Qle_not_lt in Hle.
    destruct (Qlt_le_dec 0 (detect_column_name_heuristic column).2) as [Hpos | Hz].
    + destruct (analyze_column_heuristic column column_data Hle Hpos) as (t & _ & Hf').
      rewrite Hf' in Hf. injection Hf as <-. auto.
    + apply Qle_not_lt in Hz.
      rewrite (analyze_column_none column column_data Hle Hz) in Hf. discriminate.
Qed.

(** C10. Every row of the report carries a confidence in (0.5, 1]: a
    "Pattern-Based" row a match ratio above 0.5 and at most 1, a "Column
    Name Heuristic" row one of 0.9, 0.8, 0.7; and a row has one of these
    two methods. *)
Theorem finding_confidence_range (df : DataFrame scalar) (f : Finding) :
  f ∈ analyze df ->
  (0.5 < f_confidence f)%Q
  /\ (f_confidence f <= 1)%Q
  /\ (f_detection_method f = "Pattern-Based"
      \/ f_detection_method f = "Column Name Heuristic")
  /\ (f_detection_method f = "Column Name Heuristic" ->
      f_confidence f = 0.9%Q \/ f_confidence f = 0.8%Q \/ f_confidence f = 0.7%Q).
Proof.
  rewrite analyze_dataset_omap, list_elem_of_omap.
  intros [[column column_data] [_ Hf]]. cbn [fst snd] in Hf.
  destruct (analyze_column_cases column column_data f Hf)
    as [(Hgt & Hm & Hc) | (Hpos & Hm & Hc)]; rewrite Hm, Hc.
  - destruct (detect_pattern_based_range column_data)
      as [Hd | (t & r & Hd & Hacc & Hr)]; rewrite Hd in *; cbn [fst snd] in *.
    + exfalso. apply (Qlt_not_le _ _ Hgt), heuristic_confidence_nonneg.
    + split; [exact Hr|].
      split; [apply (accepted_in_priority_order _ t r Hacc)|].
      split; [left; reflexivity | discriminate].
  - destruct (detect_column_name_heuristic_range column)
      as [Hd | (t & k & c & _ & Hv & Hd)]; rewrite Hd in *; cbn [fst snd] in *.
    + exfalso. exact (Qlt_irrefl _ Hpos).
    + split; [destruct Hv as [-> | [-> | ->]]; reflexivity|].
      split; [destruct Hv as [-> | [-> | ->]]; discriminate|].
      split; [right; reflexivity | intros _; exact Hv].
Qed.

(** C6, as the code has it. For a column named "full_name" whose values
    give the pattern detector nothing, the name heuristic finds the
    keyword "full_name" first, as the whole name, with confidence 0.9,
    and the analyzer reports the column as NAME under method "Column Name
    Heuristic" with impact 3. *)
Theorem full_name_is_an_exact_match (column_data : Series scalar) :
  detect_pattern column_data = (None, 0%Q) ->
  (exists pre post,
      sorted_items = pre ++ ("NAME", "full_name") :: post
      /\ Forall (fun p => match_strength p.2 "full_name" = None) pre)
  /\ match_strength "full_name" (normalize "full_name") = Some 0.9%Q
  /\ detect_column_name_heuristic "full_name" = (Some "NAME", 0.9%Q)
  /\ exists f,
       analyze_col "full_name" column_data = Some f
       /\ f_pii_type f = "NAME"
       /\ f_detection_method f = "Column Name Heuristic"
       /\ f_confidence f = 0.9%Q
       /\ f_impact f = 3%Z.
Proof.
  intros Hnone. split; [|split; [|split]].
  - exists (firstn 29 sorted_items), (skipn 30 sorted_items).
    split; [vm_compute; reflexivity | vm_compute; repeat constructor].
  - vm_compute. reflexivity.
  - vm_compute. reflexivity.
  - unfold analyze_column. rewrite Hnone.
    change (detect_column_name_heuristic "full_name") with (Some "NAME", 0.9%Q).
    eexists. split; [reflexivity|]. repeat split; reflexivity.
Qed.

(** C9. A type without an entry in the impact table gets impact 2: its
    row has risk score 20 x 2 x uniqueness, hence category Low up to a
    uniqueness of 3/4 and Medium above, never High. A type without an
    entry in the recommendation table gets the generic recommendation
    behind the marker of the category: the URGENT marker for High, the
    Medium marker for Medium, the Low marker otherwise. The row of a type
    that is in neither table is built all the same, with these values. *)
Theorem unmapped_type_defaults (t : pii_type) (column : string)
  (column_data : Series scalar) (confidence : Q) (detection_method : string) :
  let f := build_finding column column_data t confidence detection_method in
  let u := calculate_uniqueness column_data in
  (impact_scores !! t = None ->
   impact_of t = 2%Z
   /\ f_impact f = 2%Z
   /\ f_risk_score f = (20 * inject_Z 2 * u)%Q
   /\ ((u <= 3 # 4)%Q -> f_risk_category f = "Low")
   /\ ((3 # 4 < u)%Q -> f_risk_category f = "Medium"))
  /\ (recommendations !! t = None ->
      recommend_action t "High" = "ðŸ”´ URGENT: Apply appropriate anonymization technique"
      /\ recommend_action t "Medium" = "ðŸŸ¡ Apply appropriate anonymization technique"
      /\ (forall risk_category,
            risk_category <> "High" -> risk_category <> "Medium" ->
            recommend_action t risk_category = "ðŸŸ¢ Apply appropriate anonymization technique"))
  /\ (impact_scores !! t = None -> recommendations !! t = None ->
      ((u <= 3 # 4)%Q -> f_recommended_action f = "ðŸŸ¢ Apply appropriate anonymization technique")
      /\ ((3 # 4 < u)%Q -> f_recommended_action f = "ðŸŸ¡ Apply appropriate anonymization technique")).
Proof.
  intros f u.
  destruct (calculate_uniqueness_range column_data) as [Hlo Hhi]. fold u in Hlo, Hhi.
  assert (Hrow : impact_scores !! t = None ->
                 f_impact f = 2%Z
                 /\ f_risk_score f = (20 * inject_Z 2 * u)%Q
                 /\ ((u <= 3 # 4)%Q -> f_risk_category f = "Low")
                 /\ ((3 # 4 < u)%Q -> f_risk_category f = "Medium")).
  { intros Hi. unfold f, build_finding.
    cbn [f_impact f_risk_score f_risk_category]. fold u.
    assert (Himpact : impact_of t = 2%Z) by (unfold impact_of; rewrite Hi; reflexivity).
    rewrite Himpact.
    assert (Hscore : calculate_risk_score t 2 u = (20 * inject_Z 2 * u)%Q).
    { unfold calculate_risk_score, py_min.
      assert (Hcap : (20 * inject_Z 2 * u <= 100)%Q).
      { destruct u as [p q]. unfold Qle in *. cbn in *. lia. }
      apply Qgtb_false in Hcap. rewrite Hcap. reflexivity. }
    rewrite Hscore. split; [reflexivity|]. split; [reflexivity|]. split.
    - intros Hu. apply categorize_risk_low.
      destruct u as [p q]. unfold Qle in *. cbn in *. lia.
    - intros Hu. apply categorize_risk_medium.
      + destruct u as [p q]. unfold Qle, Qlt in *. cbn in *. lia.
      + destruct u as [p q]. unfold Qle, Qlt in *. cbn in *. lia. }
  assert (Hrec : recommendations !! t = None ->
                 recommend_action t "High" = "ðŸ”´ URGENT: Apply appropriate anonymization technique"
                 /\ recommend_action t "Medium" = "ðŸŸ¡ Apply appropriate anonymization technique"
                 /\ (forall risk_category,
                       risk_category <> "High" -> risk_category <> "Medium" ->
                       recommend_action t risk_category = "ðŸŸ¢ Apply appropriate anonymization technique")).
  { intros Hr. unfold recommend_action. rewrite Hr. cbn [default].
    split; [reflexivity|]. split; [reflexivity|].
    intros risk_category Hh Hm. unfold urgency_prefix.
    destruct (String.eqb_spec risk_category "High"); [contradiction|].
    destruct (String.eqb_spec risk_category "Medium"); [contradiction|].
    reflexivity. }
  split; [|split; [exact Hrec|]].
  - intros Hi. split; [unfold impact_of; rewrite Hi; reflexivity|]. exact (Hrow Hi).
  - intros Hi Hr. destruct (Hrow Hi) as (_ & _ & Hlow & Hmed).
    destruct (Hrec Hr) as (_ & Hm & Hother).
    change (f_recommended_action f) with (recommend_action t (f_risk_category f)).
    split; intros Hu.
    + rewrite (Hlow Hu). apply Hother; discriminate.
    + rewrite (Hmed Hu). exact Hm.
Qed.

End DetectorProperties.

(** ** The combination step on its own *)

(** C2, as the code has it. On equal confidences, 0.6 and 0.6 or any
    other pair above 0, the heuristic result is the one kept: the
    pattern result is kept on strict inequality only. With confidences
    that are not negative, the method is "None" only when both are 0, and
    "Pattern-Based" only when the pattern confidence is strictly the
    greater. *)
Theorem tie_keeps_heuristic (pattern_type heuristic_type : option pii_type)
  (pattern_conf heuristic_conf : Q) :
  (0 <= pattern_conf)%Q -> (0 <= heuristic_conf)%Q ->
  let result :=
    combine_detections (pattern_type, pattern_conf) (heuristic_type, heuristic_conf) in
  ((pattern_conf == heuristic_conf)%Q -> (0 < heuristic_conf)%Q ->
   result = (heuristic_type, heuristic_conf, "Column Name Heuristic"))
  /\ (result.2 = "None" -> (pattern_conf == 0)%Q /\ (heuristic_conf == 0)%Q)
  /\ (result.2 = "Pattern-Based" -> (heuristic_conf < pattern_conf)%Q)
  /\ combine_detections (pattern_type, 0.6%Q) (heuristic_type, 0.6%Q)
     = (heuristic_type, 0.6%Q, "Column Name Heuristic").
Proof.
  intros Hp Hh result. subst result. unfold combine_detections.
  split; [|split; [|split; [|reflexivity]]].
  - intros Heq Hpos.
    destruct (Qgtb pattern_conf heuristic_conf) eqn:E.
    + apply Qgtb_true in E. rewrite Heq in E. exfalso. exact (Qlt_irrefl _ E).
    + apply Qgtb_true in Hpos. rewrite Hpos. reflexivity.
  - destruct (Qgtb pattern_conf heuristic_conf) eqn:E; [discriminate|].
    destruct (Qgtb heuristic_conf 0) eqn:E0; [discriminate|].
    intros _. apply Qgtb_false in E, E0.
    assert (Hh0 : (heuristic_conf == 0)%Q) by (apply Qle_antisym; assumption).
    split; [|exact Hh0].
    apply Qle_antisym; [|exact Hp]. rewrite <- Hh0. exact E.
  - destruct (Qgtb pattern_conf heuristic_conf) eqn:E.
    + intros _. apply Qgtb_true, E.
    + destruct (Qgtb heuristic_conf 0); discriminate.
Qed.

(** The tie of the claim: pattern 0.6, heuristic 0.6. *)
Lemma tie_keeps_heuristic_witness :
  combine_detections (Some "EMAIL", 0.6%Q) (Some "NAME", 0.6%Q)
  = (Some "NAME", 0.6%Q, "Column Name Heuristic").
Proof.
  destruct (tie_keeps_heuristic (Some "EMAIL") (Some "NAME") 0.6 0.6)
    as (Htie & _); [discriminate | discriminate |].
  apply Htie; reflexivity.
Defined.

(** C2 as stated fails: at pattern 0.6 and heuristic 0.6 the heuristic
    result is not dropped, it is the one the combination keeps. *)
Lemma tie_drops_heuristic_refuted :
  ~ heuristic_dropped (Some "EMAIL", 0.6%Q) (Some "NAME", 0.6%Q).
Proof. intros Hdropped. apply Hdropped. reflexivity. Qed.

(** C6 as stated fails: for "full_name" the heuristic confidence is 0.9,
    not 0.8, the keyword found being "full_name" and not "name". *)
Lemma full_name_token_match_refuted :
  ~ ((detect_column_name_heuristic "full_name").2 == 0.8)%Q
  /\ detect_column_name_heuristic "full_name" = (Some "NAME", 0.9%Q).
Proof. split; [discriminate | vm_compute; reflexivity]. Qed.

(** ** Worked examples *)

(** The report of the example dataset: the SSN column by its values, the
    category column absent, the name column by its name. *)
Example example_df_report :
  analyze_dataset text_cell ssn_only_search example_df =
  [ build_finding "ssn" ssn_column "SSN" (ratio 2 2) "Pattern-Based";
    build_finding "full_name" full_name_column "NAME" 0.9%Q
      "Column Name Heuristic" ].
Proof. vm_compute. reflexivity. Qed.

Example ssn_finding_risk :
  let f := build_finding "ssn" ssn_column "SSN" (ratio 2 2) "Pattern-Based" in
  f_impact f = 5%Z
  /\ (f_uniqueness f == 1)%Q
  /\ (f_risk_score f == 100)%Q
  /\ f_risk_category f = "High"
  /\ f_recommended_action f
     = urgency_prefix "High" +:+ "Tokenization or full masking (e.g., ***-**-1234)".
Proof. repeat split; vm_compute; reflexivity. Qed.

(** A tie the detectors do produce: nine values in ten match the SSN
    pattern, the column is named "ssn"; 0.9 against 0.9, the heuristic
    result is the one reported. *)
Example tie_at_nine_tenths :
  detect_pattern_based text_cell ssn_only_search mostly_ssn_column
  = (Some "SSN", ratio 9 10)
  /\ detect_column_name_heuristic "ssn" = (Some "SSN", 0.9%Q)
  /\ f_detection_method <$> analyze_column text_cell ssn_only_search "ssn"
                               mostly_ssn_column
     = Some "Column Name Heuristic".
Proof. repeat split; vm_compute; reflexivity. Qed.

Lemma reconciliation_rule_witness :
  ("ssn", ssn_column) ∈ example_df
  /\ ((detect_column_name_heuristic "ssn").2
      < (detect_pattern_based text_cell ssn_only_search ssn_column).2)%Q
  /\ exists f,
       analyze_column text_cell ssn_only_search "ssn" ssn_column = Some f
       /\ f ∈ analyze_dataset text_cell ssn_only_search example_df
       /\ f_detection_method f = "Pattern-Based".
Proof.
  assert (Hin : ("ssn", ssn_column) ∈ example_df) by left.
  assert (Hlt : ((detect_column_name_heuristic "ssn").2
                 < (detect_pattern_based text_cell ssn_only_search ssn_column).2)%Q)
    by (vm_compute; reflexivity).
  split; [exact Hin|]. split; [exact Hlt|].
  destruct (reconciliation_rule text_cell ssn_only_search example_df "ssn"
              ssn_column Hin) as (Hpattern & _).
  destruct (Hpattern Hlt) as (f & Hf & Hrow & _ & _ & _ & Hm).
  exists f. split; [exact Hf|]. split; [exact Hrow | exact Hm].
Defined.

Lemma pattern_detector_contract_witness :
  detect_pattern_based text_cell ssn_only_search ssn_column
  = (Some "SSN", ratio 2 2).
Proof.
  destruct (pattern_detector_contract text_cell ssn_only_search ssn_column)
    as (_ & Hshort).
  - apply (bool_decide_unpack _). vm_compute. reflexivity.
  - discriminate.
  - destruct Hshort as (Hfirst & _).
    + vm_compute. discriminate.
    + apply (Hfirst ["CREDIT_CARD"] "SSN"
               ["IBAN"; "EMAIL"; "PHONE"; "IP_ADDRESS"; "GPS_COORDINATES";
                "DATE_OF_BIRTH"; "NATIONAL_ID"; "ADDRESS"; "URL"]).
      * reflexivity.
      * intros t' r' Hin Hacc. apply list_elem_of_singleton in Hin. subst t'.
        apply (pattern_matches_get ssn_only_search) in Hacc.
        vm_compute in Hacc. discriminate.
      * apply (pattern_matches_get ssn_only_search). vm_compute. reflexivity.
      * vm_compute. reflexivity.
Defined.

Lemma finding_confidence_range_witness :
  build_finding "full_name" full_name_column "NAME" 0.9%Q "Column Name Heuristic"
    ∈ analyze_dataset text_cell ssn_only_search example_df
  /\ (0.5 < 0.9)%Q /\ (0.9 <= 1)%Q.
Proof.
  assert (Hin : build_finding "full_name" full_name_column "NAME" 0.9%Q
                  "Column Name Heuristic"
                ∈ analyze_dataset text_cell ssn_only_search example_df).
  { rewrite example_df_report. right. left. }
  split; [exact Hin|].
  destruct (finding_confidence_range text_cell ssn_only_search example_df _ Hin)
    as (Hlo & Hhi & _).
  split; [exact Hlo | exact Hhi].
Defined.

Lemma full_name_is_an_exact_match_witness :
  detect_pattern_based text_cell ssn_only_search full_name_column = (None, 0%Q)
  /\ exists f,
       analyze_column text_cell ssn_only_search "full_name" full_name_column = Some f
       /\ f_pii_type f = "NAME"
       /\ f_confidence f = 0.9%Q
       /\ f_impact f = 3%Z.
Proof.
  assert (Hnone : detect_pattern_based text_cell ssn_only_search full_name_column
                  = (None, 0%Q)) by (vm_compute; reflexivity).
  split; [exact Hnone|].
  destruct (full_name_is_an_exact_match text_cell ssn_only_search
              full_name_column Hnone) as (_ & _ & _ & f & Hf & Ht & _ & Hc & Hi).
  exists f. auto.
Defined.

(** A column with one value present and one missing: uniqueness 1/2. *)
Lemma uniqueness_of_present_values_witness :
  (calculate_uniqueness gappy_column <= 1)%Q
  /\ calculate_uniqueness gappy_column = ratio 1 2.
Proof.
  destruct (uniqueness_of_present_values gappy_column)
    as (distinct & _ & _ & _ & _ & _ & Hhi).
  split; [exact Hhi | vm_compute; reflexivity].
Defined.

(** C7 as stated fails: with the missing value counted as one more
    regular value the ratio of this column would be 2/2; the code gives
    1/2. *)
Lemma missing_counted_as_value_refuted :
  ~ (calculate_uniqueness gappy_column
     == uniqueness_missing_as_value gappy_column)%Q.
Proof. vm_compute. discriminate. Qed.

(** "PASSPORT" is in neither table; half of the cells of the column are
    distinct values. *)
Lemma unmapped_type_defaults_witness :
  impact_scores !! "PASSPORT" = None
  /\ recommendations !! "PASSPORT" = None
  /\ (calculate_uniqueness gappy_column <= 3 # 4)%Q
  /\ impact_of "PASSPORT" = 2%Z
  /\ f_risk_category
       (build_finding "passport" gappy_column "PASSPORT" 0.9%Q
          "Column Name Heuristic") = "Low"
  /\ f_recommended_action
       (build_finding "passport" gappy_column "PASSPORT" 0.9%Q
          "Column Name Heuristic")
     = "ðŸŸ¢ Apply appropriate anonymization technique".
Proof.
  assert (Hi : impact_scores !! "PASSPORT" = None) by (vm_compute; reflexivity).
  assert (Hr : recommendations !! "PASSPORT" = None) by (vm_compute; reflexivity).
  assert (Hu : (calculate_uniqueness gappy_column <= 3 # 4)%Q)
    by (vm_compute; discriminate).
  destruct (unmapped_type_defaults "PASSPORT" "passport" gappy_column 0.9%Q
              "Column Name Heuristic") as (Himpact & _ & Hboth).
  destruct (Himpact Hi) as (H2 & _ & _ & Hlow & _).
  destruct (Hboth Hi Hr) as (Hgreen & _).
  split; [exact Hi|]. split; [exact Hr|]. split; [exact Hu|].
  split; [exact H2|]. split; [exact (Hlow Hu) | exact (Hgreen Hu)].
Defined.

(** ** More on the name heuristic *)

Lemma contains_trans (a b c : string) :
  PyStr.contains a b = true -> PyStr.contains b c = true ->
  PyStr.contains a c = true.
Proof.
  rewrite !contains_spec. intros (p1 & q1 & ->) (p2 & q2 & ->).
  exists (p2 +:+ p1), (q1 +:+ q2). rewrite !append_assoc. reflexivity.
Qed.

(** X1. A library keyword that holds an entry of the exclusion list as a
    delimited token never matches: every name it occurs in is excluded
    first. *)
Theorem keyword_with_excluded_token_is_shadowed
  (column_name keyword entry : string) :
  entry ∈ non_pii_keywords ->
  PyStr.contains ("_" +:+ entry) keyword = true
  \/ PyStr.contains (entry +:+ "_") keyword = true ->
  PyStr.contains keyword (normalize column_name) = true ->
  detect_column_name_heuristic column_name = (None, 0%Q).
Proof.
  intros Hin Htoken Hname.
  rewrite detect_column_name_heuristic_unfold.
  rewrite (excluded_true _ entry Hin); [reflexivity|].
  right. destruct Htoken as [H | H]; [left | right];
    exact (contains_trans _ _ _ H Hname).
Qed.

(** The MEDICAL keyword "blood_type" holds the excluded "type" as a
    token: a column named "Blood_Type" gets no detection. *)
Lemma keyword_with_excluded_token_is_shadowed_witness :
  ("MEDICAL", "blood_type") ∈ keyword_items
  /\ detect_column_name_heuristic "Blood_Type" = (None, 0%Q).
Proof.
  split; [apply list_elem_of_In; vm_compute; tauto|].
  apply (keyword_with_excluded_token_is_shadowed "Blood_Type" "blood_type" "type").
  - apply list_elem_of_In. vm_compute. tauto.
  - left. vm_compute. reflexivity.
  - vm_compute. reflexivity.
Defined.

Lemma sorted_items_keyword_items (p : pii_type * string) :
  p ∈ sorted_items <-> p ∈ keyword_items.
Proof.
  unfold sorted_items. rewrite <- (sort_by_len_desc_perm keyword_items).
  reflexivity.
Qed.

(** X2. The name heuristic answers in one of three ways: no detection
    with confidence 0; a type with 0.9, the normalized name being one of
    its keywords; or a type with 0.8, one of its keywords being a
    delimited token of the name. The 0.7 of its last branch is never
    returned. *)
Theorem heuristic_confidence_values (column_name : string) :
  detect_column_name_heuristic column_name = (None, 0%Q)
  \/ (exists t,
        detect_column_name_heuristic column_name = (Some t, 0.9%Q)
        /\ (t, normalize column_name) ∈ keyword_items)
  \/ (exists t keyword,
        detect_column_name_heuristic column_name = (Some t, 0.8%Q)
        /\ (t, keyword) ∈ keyword_items
        /\ keyword <> normalize column_name
        /\ (PyStr.contains ("_" +:+ keyword) (normalize column_name) = true
            \/ PyStr.contains (keyword +:+ "_") (normalize column_name) = true)).
Proof.
  rewrite detect_column_name_heuristic_unfold.
  destruct (excluded (normalize column_name)); [left; reflexivity|].
  set (n := normalize column_name).
  destruct (heuristic_scan_range sorted_items n)
    as [Hn | (t & k & c & Hin & Hs & Hr)]; [left; exact Hn|].
  right. rewrite Hr. apply sorted_items_keyword_items in Hin.
  pose proof (segment_tier_unreachable k n) as Hno.
  unfold match_strength in Hs, Hno.
  destruct (String.eqb_spec k n) as [Heq | Hne].
  - left. injection Hs as <-. subst k. exists t. split; [reflexivity | exact Hin].
  - destruct (PyStr.contains ("_" +:+ k) n || PyStr.contains (k +:+ "_") n) eqn:Etoken.
    + right. injection Hs as <-. exists t, k.
      split; [reflexivity|]. split; [exact Hin|]. split; [exact Hne|].
      apply orb_true_iff, Etoken.
    + destruct (String.eqb k (PyStr.first (PyStr.split "_" n))
                || String.eqb k (PyStr.last (PyStr.split "_" n)));
        [congruence | discriminate].
Qed.

(** X3. A column whose normalized name is a keyword of the library, and
    is not excluded, is given the type of that keyword with confidence
    0.9: no other keyword is tried before it. *)
Theorem exact_keyword_name (column_name : string) (t : pii_type) :
  (t, normalize column_name) ∈ keyword_items ->
  excluded (normalize column_name) = false ->
  detect_column_name_heuristic column_name = (Some t, 0.9%Q).
Proof.
  intros Hin Hex. rewrite detect_column_name_heuristic_unfold, Hex.
  assert (Hall : Forall (fun p => excluded p.2 = false ->
                                  heuristic_scan sorted_items p.2 = (Some p.1, 0.9%Q))
                        keyword_items).
  { apply Forall_forall. intros p Hp.
    assert (Hb : forallb (fun p : pii_type * string =>
                            excluded p.2
                            || match heuristic_scan sorted_items p.2 with
                               | (Some t', c) =>
                                   String.eqb t' p.1 && Z.eqb (Qnum c) 9
                                   && Pos.eqb (Qden c) 10
                               | _ => false
                               end) keyword_items = true)
      by (vm_compute; reflexivity).
    rewrite forallb_forall in Hb. specialize (Hb p (proj1 (list_elem_of_In _ _) Hp)).
    cbv beta in Hb. intros Hp_ex. rewrite Hp_ex in Hb. cbn [orb] in Hb.
    destruct (heuristic_scan sorted_items p.2) as [[t'|] [cn cd]]; [|discriminate].
    apply andb_true_iff in Hb as [Hb Hden]. apply andb_true_iff in Hb as [Ht Hnum].
    apply String.eqb_eq in Ht. cbn [Qnum Qden] in *.
    apply Z.eqb_eq in Hnum. apply Pos.eqb_eq in Hden. subst. reflexivity. }
  rewrite Forall_forall in Hall. apply (Hall (t, normalize column_name) Hin Hex).
Qed.

Lemma exact_keyword_name_witness :
  detect_column_name_heuristic " Date_Of_Birth" = (Some "DOB", 0.9%Q).
Proof.
  apply exact_keyword_name.
  - apply list_elem_of_In. vm_compute. tauto.
  - vm_compute. reflexivity.
Defined.

Lemma lower_char_idem (c : ascii) :
  PyStr.lower_char (PyStr.lower_char c) = PyStr.lower_char c.
Proof. destruct c as [[] [] [] [] [] [] [] []]; reflexivity. Qed.

Lemma isspace_lower_char (c : ascii) :
  PyStr.isspace (PyStr.lower_char c) = PyStr.isspace c.
Proof. destruct c as [[] [] [] [] [] [] [] []]; reflexivity. Qed.

Lemma lower_idem (s : string) : PyStr.lower (PyStr.lower s) = PyStr.lower s.
Proof.
  induction s as [|c s IH]; [reflexivity|].
  cbn [PyStr.lower]. rewrite lower_char_idem, IH. reflexivity.
Qed.

Lemma lstrip_lower (s : string) :
  PyStr.lstrip (PyStr.lower s) = PyStr.lower (PyStr.lstrip s).
Proof.
  induction s as [|c s IH]; [reflexivity|].
  cbn [PyStr.lower PyStr.lstrip]. rewrite isspace_lower_char.
  destruct (PyStr.isspace c); [exact IH | reflexivity].
Qed.

Lemma rstrip_lower (s : string) :
  PyStr.rstrip (PyStr.lower s) = PyStr.lower (PyStr.rstrip s).
Proof.
  induction s as [|c s IH]; [reflexivity|].
  cbn [PyStr.lower PyStr.rstrip]. rewrite IH, isspace_lower_char.
  destruct (PyStr.rstrip s) as [|a r]; cbn [PyStr.lower].
  - destruct (PyStr.isspace c); reflexivity.
  - reflexivity.
Qed.

Lemma rstrip_idem (s : string) : PyStr.rstrip (PyStr.rstrip s) = PyStr.rstrip s.
Proof.
  induction s as [|c s IH]; [reflexivity|].
  cbn [PyStr.rstrip]. destruct (PyStr.rstrip s) as [|a r] eqn:E.
  - destruct (PyStr.isspace c) eqn:Ec; [reflexivity|].
    cbn [PyStr.rstrip]. rewrite Ec. reflexivity.
  - cbn [PyStr.rstrip] in *. rewrite IH. reflexivity.
Qed.

(** Stripping on the right keeps a first character that is no space. *)
Lemma lstrip_rstrip_lstrip (s : string) :
  PyStr.lstrip (PyStr.rstrip (PyStr.lstrip s)) = PyStr.rstrip (PyStr.lstrip s).
Proof.
  induction s as [|c s IH]; [reflexivity|].
  cbn [PyStr.lstrip]. destruct (PyStr.isspace c) eqn:Ec; [exact IH|].
  cbn [PyStr.rstrip]. destruct (PyStr.rstrip s) as [|a r].
  - rewrite Ec. cbn [PyStr.lstrip]. rewrite Ec. reflexivity.
  - cbn [PyStr.lstrip]. rewrite Ec. reflexivity.
Qed.

Lemma strip_idem (s : string) : PyStr.strip (PyStr.strip s) = PyStr.strip s.
Proof.
  unfold PyStr.strip. rewrite lstrip_rstrip_lstrip. apply rstrip_idem.
Qed.

Lemma strip_lower (s : string) :
  PyStr.strip (PyStr.lower s) = PyStr.lower (PyStr.strip s).
Proof. unfold PyStr.strip. rewrite lstrip_lower, rstrip_lower. reflexivity. Qed.

Lemma lower_char_ascii (c : ascii) :
  (nat_of_ascii c <? 128)%nat = true ->
  (nat_of_ascii (PyStr.lower_char c) <? 128)%nat = true.
Proof.
  destruct c as [[] [] [] [] [] [] [] []]; intros Hc;
    first [reflexivity | discriminate Hc].
Qed.

Lemma isascii_lower (s : string) :
  PyStr.isascii s = true -> PyStr.isascii (PyStr.lower s) = true.
Proof.
  induction s as [|c s IH]; [reflexivity|].
  cbn [PyStr.isascii PyStr.lower]. rewrite !andb_true_iff.
  intros [Hc Hs]. split; [apply lower_char_ascii, Hc | apply IH, Hs].
Qed.

Lemma isascii_lstrip (s : string) :
  PyStr.isascii s = true -> PyStr.isascii (PyStr.lstrip s) = true.
Proof.
  induction s as [|c s IH]; [reflexivity|].
  cbn [PyStr.lstrip]. destruct (PyStr.isspace c); [|intros Hs; exact Hs].
  cbn [PyStr.isascii]. rewrite andb_true_iff. intros [_ Hs]. apply IH, Hs.
Qed.

Lemma isascii_rstrip (s : string) :
  PyStr.isascii s = true -> PyStr.isascii (PyStr.rstrip s) = true.
Proof.
  induction s as [|c s IH]; [reflexivity|].
  cbn [PyStr.isascii PyStr.rstrip]. rewrite andb_true_iff. intros [Hc Hs].
  specialize (IH Hs). destruct (PyStr.rstrip s) as [|a r].
  - destruct (PyStr.isspace c); [reflexivity|].
    cbn [PyStr.isascii]. rewrite Hc. reflexivity.
  - cbn [PyStr.isascii] in *. rewrite Hc. exact IH.
Qed.

(** X4. The name heuristic reads an ASCII column name without regard to
    letter case or to surrounding white space: the lower-cased name, the
    stripped name and the name itself get the same answer, and the
    normalized name the heuristic works on is ASCII again. *)
Theorem heuristic_ignores_case_and_padding (column_name : string) :
  PyStr.isascii column_name = true ->
  detect_column_name_heuristic (PyStr.lower column_name)
  = detect_column_name_heuristic column_name
  /\ detect_column_name_heuristic (PyStr.strip column_name)
     = detect_column_name_heuristic column_name
  /\ PyStr.isascii (normalize column_name) = true.
Proof.
  intros Hascii.
  rewrite !detect_column_name_heuristic_unfold. unfold normalize.
  split; [|split].
  - rewrite lower_idem. reflexivity.
  - rewrite <- strip_lower, strip_idem. reflexivity.
  - unfold PyStr.strip. apply isascii_rstrip, isascii_lstrip, isascii_lower, Hascii.
Qed.

Lemma heuristic_ignores_case_and_padding_witness :
  PyStr.isascii "  Customer_EMAIL " = true
  /\ detect_column_name_heuristic (PyStr.lower "  Customer_EMAIL ")
     = detect_column_name_heuristic "  Customer_EMAIL "
  /\ detect_column_name_heuristic (PyStr.strip "  Customer_EMAIL ")
     = detect_column_name_heuristic "  Customer_EMAIL "
  /\ detect_column_name_heuristic "  Customer_EMAIL " = (Some "EMAIL", 0.8%Q).
Proof.
  assert (Hascii : PyStr.isascii "  Customer_EMAIL " = true) by reflexivity.
  destruct (heuristic_ignores_case_and_padding "  Customer_EMAIL " Hascii)
    as (Hlower & Hstrip & _).
  split; [exact Hascii|]. split; [exact Hlower|]. split; [exact Hstrip|].
  vm_compute. reflexivity.
Defined.

(** ** More on the combination step and the risk scorer *)

(** X5. With confidences that are not negative, the confidence the
    combination step keeps is the greater of the two. *)
Theorem combined_confidence_is_max (pattern_type heuristic_type : option pii_type)
  (pattern_conf heuristic_conf : Q) :
  (0 <= pattern_conf)%Q -> (0 <= heuristic_conf)%Q ->
  ((combine_detections (pattern_type, pattern_conf)
                       (heuristic_type, heuristic_conf)).1.2
   == Qmax pattern_conf heuristic_conf)%Q.
Proof.
  intros Hp Hh. unfold combine_detections.
  destruct (Qgtb pattern_conf heuristic_conf) eqn:E.
  - apply Qgtb_true in E. cbn [fst snd]. symmetry.
    apply Q.max_l, Qlt_le_weak, E.
  - apply Qgtb_false in E.
    destruct (Qgtb heuristic_conf 0) eqn:E0; cbn [fst snd].
    + symmetry. apply Q.max_r, E.
    + apply Qgtb_false in E0.
      assert (Hh0 : (heuristic_conf == 0)%Q) by (apply Qle_antisym; assumption).
      rewrite Q.max_r by exact E. symmetry. exact Hh0.
Qed.

Lemma combined_confidence_is_max_witness :
  ((combine_detections (Some "EMAIL", 0.75%Q) (Some "NAME", 0.8%Q)).1.2
   == Qmax 0.75 0.8)%Q.
Proof.
  apply (combined_confidence_is_max (Some "EMAIL") (Some "NAME") 0.75 0.8);
    discriminate.
Defined.

Lemma categorize_risk_spec (s : Q) :
  (categorize_risk s = "Low" <-> (s <= 30)%Q)
  /\ (categorize_risk s = "Medium" <-> (30 < s)%Q /\ (s <= 70)%Q)
  /\ (categorize_risk s = "High" <-> (70 < s)%Q).
Proof.
  destruct (Qlt_le_dec 30 s) as [H30 | H30].
  - destruct (Qlt_le_dec 70 s) as [H70 | H70].
    + rewrite (categorize_risk_high s H70).
      repeat split; try discriminate; try (intros; assumption).
      * intros Hle. exfalso. exact (Qlt_not_le _ _ H30 Hle).
      * intros [_ Hle]. exfalso. exact (Qlt_not_le _ _ H70 Hle).
    + rewrite (categorize_risk_medium s H30 H70).
      repeat split; try discriminate; try (intros; assumption).
      * intros Hle. exfalso. exact (Qlt_not_le _ _ H30 Hle).
      * intros Hlt. exfalso. exact (Qlt_not_le _ _ Hlt H70).
  - rewrite (categorize_risk_low s H30).
    repeat split; try discriminate; try (intros; assumption).
    + intros [Hlt _]. exfalso. exact (Qlt_not_le _ _ Hlt H30).
    + intros Hlt. exfalso. apply (Qlt_not_le _ _ Hlt).
      eapply Qle_trans; [exact H30 | discriminate].
Qed.

(** X6. The risk score does not decrease when the uniqueness grows, and
    neither does the category: a column rated Low stays Low with less
    uniqueness, a column rated High stays High with more. *)
Theorem risk_grows_with_uniqueness (t : pii_type) (impact : Z) (u1 u2 : Q) :
  (0 <= impact)%Z -> (u1 <= u2)%Q ->
  (calculate_risk_score t impact u1 <= calculate_risk_score t impact u2)%Q
  /\ (categorize_risk (calculate_risk_score t impact u2) = "Low" ->
      categorize_risk (calculate_risk_score t impact u1) = "Low")
  /\ (categorize_risk (calculate_risk_score t impact u1) = "High" ->
      categorize_risk (calculate_risk_score t impact u2) = "High").
Proof.
  intros Hi Hu.
  assert (Hle : (calculate_risk_score t impact u1
                 <= calculate_risk_score t impact u2)%Q).
  { unfold calculate_risk_score. rewrite !py_min_Qmin.
    apply Q.min_le_compat_r.
    rewrite !(Qmult_comm (20 * inject_Z impact)).
    apply Qmult_le_compat_r; [exact Hu|].
    apply Qmult_le_0_compat; [discriminate|].
    unfold Qle. simpl. lia. }
  split; [exact Hle|]. split.
  - intros Hlow. apply categorize_risk_spec. apply categorize_risk_spec in Hlow.
    eapply Qle_trans; eassumption.
  - intros Hhigh. apply categorize_risk_spec. apply categorize_risk_spec in Hhigh.
    eapply Qlt_le_trans; eassumption.
Qed.

Lemma risk_grows_with_uniqueness_witness :
  (calculate_risk_score "EMAIL" 4 0.5 <= calculate_risk_score "EMAIL" 4 0.9)%Q
  /\ categorize_risk (calculate_risk_score "EMAIL" 4 0.5) = "Medium"
  /\ categorize_risk (calculate_risk_score "EMAIL" 4 0.9) = "High".
Proof.
  split; [|split; vm_compute; reflexivity].
  apply (risk_grows_with_uniqueness "EMAIL" 4 0.5 0.9); [lia | discriminate].
Defined.

(** ** More on the detectors and the report *)

Lemma priority_scan_some_first (order : list pii_type)
  (pattern_matches : list (pii_type * Q)) (t : pii_type) (r : Q) :
  priority_scan order pattern_matches = Some (t, r) ->
  exists pre post,
    order = pre ++ t :: post
    /\ forall t' r', t' ∈ pre -> dict_get pattern_matches t' = Some r' ->
                     ~ (0.5 < r')%Q.
Proof.
  induction order as [|t0 order IH]; simpl; [discriminate|].
  destruct (dict_get pattern_matches t0) as [r0|] eqn:E.
  - destruct (Qgtb r0 0.5) eqn:Er.
    + intros [= -> ->]. exists [], order. split; [reflexivity|].
      intros t' r' Hin. inversion Hin.
    + intros Hs. destruct (IH Hs) as (pre & post & -> & Hpre).
      exists (t0 :: pre), post. split; [reflexivity|].
      intros t' r' Hin Hd. apply elem_of_cons in Hin as [-> | Hin].
      * rewrite E in Hd. injection Hd as <-. apply Qle_not_lt, Qgtb_false, Er.
      * exact (Hpre t' r' Hin Hd).
  - intros Hs. destruct (IH Hs) as (pre & post & -> & Hpre).
    exists (t0 :: pre), post. split; [reflexivity|].
    intros t' r' Hin Hd. apply elem_of_cons in Hin as [-> | Hin].
    + rewrite E in Hd. discriminate.
    + exact (Hpre t' r' Hin Hd).
Qed.

Lemma ratio_above_half (m n : nat) :
  n <> 0%nat -> (0.5 < ratio m n)%Q -> (n < 2 * m)%nat.
Proof.
  intros Hn. unfold ratio, Qlt. cbn [Qnum Qden].
  rewrite Zpos_of_nat by exact Hn. lia.
Qed.

Section DetectorExtras.

Context {scalar : Type} `{EqDecision scalar}.
Variable astype_str : scalar -> string.
Variable regex_search : string -> string -> option bool.

Local Abbreviation detect_pattern := (detect_pattern_based astype_str regex_search).
Local Abbreviation text_of := (string_data_of astype_str).
Local Abbreviation step := (pattern_step regex_search).
Local Abbreviation is_accepted := (accepted regex_search).
Local Abbreviation analyze_col := (analyze_column astype_str regex_search).
Local Abbreviation analyze := (analyze_dataset astype_str regex_search).

Lemma detect_pattern_textual (column_data : Series scalar) (t : pii_type) (r : Q) :
  detect_pattern column_data = (Some t, r) ->
  dtype column_data ∈ ["object"; "string"].
Proof.
  intros Hd.
  destruct (decide (dtype column_data ∈ ["object"; "string"])) as [H' | H']; [exact H'|].
  unfold detect_pattern_based in Hd.
  rewrite bool_decide_eq_false_2 in Hd by exact H'. discriminate.
Qed.

(** X7. A detection of the pattern detector is earned: the column is
    textual, has a value present, its mean text length is at most 500 and
    its first value at most 200 characters long; strictly more than half
    of the present values hold the pattern of the reported type, that
    share being the confidence; and no type earlier in the priority order
    is an accepted candidate above 0.5. *)
Theorem pattern_detection_is_earned (column_data : Series scalar)
  (t : pii_type) (r : Q) :
  detect_pattern column_data = (Some t, r) ->
  let string_data := text_of column_data in
  dtype column_data ∈ ["object"; "string"]
  /\ string_data <> []
  /\ ~ (500 < ratio (total_length string_data) (length string_data))%Q
  /\ (String.length (List.hd EmptyString string_data) <= 200)%nat
  /\ (exists pattern matches,
        (t, pattern) ∈ pii_patterns
        /\ str_contains_sum regex_search pattern string_data = Some matches
        /\ r = ratio matches (length string_data)
        /\ (length string_data < 2 * matches)%nat
        /\ (matches <= length string_data)%nat)
  /\ (exists pre post,
        priority_order = pre ++ t :: post
        /\ forall t' r', t' ∈ pre -> is_accepted string_data t' r' ->
                         ~ (0.5 < r')%Q).
Proof.
  intros Hd string_data.
  assert (Hdtype : dtype column_data ∈ ["object"; "string"])
    by exact (detect_pattern_textual column_data t r Hd).
  assert (Hne : string_data <> []).
  { intros He. unfold detect_pattern_based in Hd.
    rewrite bool_decide_eq_true_2 in Hd by exact Hdtype. cbn [negb] in Hd.
    subst string_data. unfold string_data_of in He. rewrite He in Hd. discriminate. }
  split; [exact Hdtype|]. split; [exact Hne|].
  destruct (detect_pattern_based_range astype_str regex_search column_data)
    as [Hn | (t0 & r0 & Hd0 & Hacc & Hr)]; [congruence|].
  rewrite Hd in Hd0. injection Hd0 as <- <-. fold string_data in Hacc.
  rewrite (detect_pattern_based_unfold astype_str regex_search column_data Hdtype Hne) in Hd.
  cbv zeta in Hd. fold string_data in Hd.
  destruct (Qgtb (ratio (total_length string_data) (length string_data)) 500) eqn:Em;
    [discriminate|].
  split; [apply Qle_not_lt, Qgtb_false, Em|].
  destruct Hacc as (pattern & Hin & Hratio & H03 & Hlen).
  split; [exact Hlen|]. split.
  - unfold match_ratio in Hratio.
    destruct (str_contains_sum regex_search pattern string_data) as [m|] eqn:Es;
      cbn [fmap option_fmap option_map] in Hratio; [|discriminate].
    injection Hratio as <-. exists pattern, m.
    split; [exact Hin|]. split; [exact Es|]. split; [reflexivity|].
    split.
    + apply ratio_above_half; [|exact Hr].
      destruct string_data; [congruence | discriminate].
    + unfold str_contains_sum in Es.
      destruct (mapM (regex_search pattern) string_data) as [hits|] eqn:E;
        cbn [fmap option_fmap option_map] in Es; [|discriminate].
      injection Es as <-. rewrite (length_mapM _ _ _ E).
      apply List.filter_length_le.
  - set (pm := fold_left (step string_data) pii_patterns []) in *.
    assert (Hget : dict_get pm t = Some r).
    { apply (pattern_matches_get regex_search). exists pattern. auto. }
    destruct pm as [|x pm'] eqn:Epm; [discriminate|]. rewrite <- Epm in *.
    destruct (priority_scan priority_order pm) as [[t1 r1]|] eqn:Eps.
    + injection Hd as -> ->.
      destruct (priority_scan_some_first _ _ _ _ Eps) as (pre & post & Ho & Hpre).
      exists pre, post. split; [exact Ho|].
      intros t' r' Hin' Hacc'. apply (Hpre t' r' Hin').
      apply (pattern_matches_get regex_search), Hacc'.
    + exfalso.
      assert (Hnone : priority_scan priority_order pm <> None).
      { assert (Hin' : t ∈ priority_order)
          by (eapply pii_patterns_in_priority_order, Hin).
        clear Eps. induction priority_order as [|t0 order IH]; [inversion Hin'|].
        simpl. apply elem_of_cons in Hin' as [<- | Hin'].
        - rewrite Hget. apply Qgtb_true in Hr. rewrite Hr. discriminate.
        - destruct (dict_get pm t0) as [r0|]; [|exact (IH Hin')].
          destruct (Qgtb r0 0.5); [discriminate | exact (IH Hin')]. }
      congruence.
Qed.

(** X8. The guard on the first value decides alone: when the first value
    present is longer than 200 characters the pattern detector reports
    nothing, whatever share of the values match. *)
Theorem long_first_value_blocks_detection (column_data : Series scalar)
  (first_value : string) (rest : list string) :
  text_of column_data = first_value :: rest ->
  (200 < String.length first_value)%nat ->
  detect_pattern column_data = (None, 0%Q).
Proof.
  intros Htext Hlong.
  destruct (detect_pattern_based_range astype_str regex_search column_data)
    as [Hn | (t & r & _ & Hacc & _)]; [exact Hn|].
  destruct Hacc as (pattern & _ & _ & _ & Hlen).
  rewrite Htext in Hlen. cbn [List.hd] in Hlen. lia.
Qed.

Lemma dropna_skips_missing (before after : list (option scalar)) :
  dropna (before ++ None :: after) = dropna (before ++ after).
Proof.
  unfold dropna. induction before as [|[x|] l IH]; cbn [app omap list_omap id].
  - reflexivity.
  - rewrite IH. reflexivity.
  - exact IH.
Qed.

Lemma ratio_le_more_cells (u n : nat) :
  n <> 0%nat -> (ratio u (S n) <= ratio u n)%Q.
Proof.
  intros Hn. unfold ratio, Qle. cbn [Qnum Qden].
  rewrite !Zpos_of_nat by lia. nia.
Qed.

(** X9. A missing cell, wherever it stands in a column, leaves the
    verdict of the pattern detector and the count of distinct values as
    they are, adds one to the count of missing values, and does not
    raise the uniqueness. *)
Theorem missing_cell_effect (dt : string) (before after : list (option scalar)) :
  let with_gap := mkSeries dt (before ++ None :: after) in
  let without := mkSeries dt (before ++ after) in
  detect_pattern with_gap = detect_pattern without
  /\ nunique with_gap = nunique without
  /\ null_count with_gap = S (null_count without)
  /\ (calculate_uniqueness with_gap <= calculate_uniqueness without)%Q.
Proof.
  intros with_gap without. split; [|split; [|split]].
  - unfold detect_pattern_based, with_gap, without. cbn [dtype values].
    rewrite dropna_skips_missing. reflexivity.
  - unfold nunique, with_gap, without. cbn [values].
    rewrite dropna_skips_missing. reflexivity.
  - unfold null_count, with_gap, without. cbn [values].
    rewrite !List.filter_app. cbn [List.filter]. rewrite !length_app.
    cbn [length]. lia.
  - unfold calculate_uniqueness, nunique, with_gap, without. cbn [values].
    rewrite dropna_skips_missing.
    assert (Hlen : length (before ++ None :: after) = S (length (before ++ after)))
      by (rewrite !length_app; cbn [length]; lia).
    rewrite Hlen. cbn [Nat.eqb].
    destruct (length (before ++ after)) as [|n] eqn:En.
    + cbn [Nat.eqb]. apply nil_length_inv in En. rewrite En.
      unfold ratio, Qle. simpl. lia.
    + cbn [Nat.eqb]. apply ratio_le_more_cells. discriminate.
Qed.

Lemma finding_origin (df : DataFrame scalar) (f : Finding) :
  f ∈ analyze df ->
  exists column column_data,
    (column, column_data) ∈ df /\ analyze_col column column_data = Some f.
Proof.
  rewrite (analyze_dataset_omap astype_str regex_search), list_elem_of_omap.
  intros [[c d] [Hin Hf]]. exists c, d. split; [exact Hin | exact Hf].
Qed.

(** The row of a column is built from the result of one of the two
    detectors. *)
Lemma analyze_column_shape (column : string) (column_data : Series scalar)
  (f : Finding) :
  analyze_col column column_data = Some f ->
  exists t conf,
    (f = build_finding column column_data t conf "Pattern-Based"
     /\ detect_pattern column_data = (Some t, conf))
    \/ (f = build_finding column column_data t conf "Column Name Heuristic"
        /\ detect_column_name_heuristic column = (Some t, conf)
        /\ (0 < conf)%Q).
Proof.
  intros Hf.
  destruct (Qlt_le_dec (detect_column_name_heuristic column).2
                       (detect_pattern column_data).2) as [Hgt | Hle].
  - destruct (analyze_column_pattern astype_str regex_search column column_data Hgt)
      as (t & Ht & Hf').
    rewrite Hf' in Hf. injection Hf as <-.
    exists t, (detect_pattern column_data).2. left. split; [reflexivity|].
    destruct (detect_pattern column_data) as [o c]. cbn [fst snd] in *. congruence.
  - apply Qle_not_lt in Hle.
    destruct (Qlt_le_dec 0 (detect_column_name_heuristic column).2) as [Hpos | Hz].
    + destruct (analyze_column_heuristic astype_str regex_search column column_data
                  Hle Hpos) as (t & Ht & Hf').
      rewrite Hf' in Hf. injection Hf as <-.
      exists t, (detect_column_name_heuristic column).2. right.
      split; [reflexivity|]. split; [|exact Hpos].
      destruct (detect_column_name_heuristic column) as [o c].
      cbn [fst snd] in *. congruence.
    + apply Qle_not_lt in Hz.
      rewrite (analyze_column_none astype_str regex_search column column_data Hle Hz)
        in Hf. discriminate.
Qed.

Lemma detector_types_have_entries (t : pii_type) :
  t ∈ priority_order \/ (exists keyword, (t, keyword) ∈ keyword_items) ->
  exists impact recommendation,
    impact_scores !! t = Some impact
    /\ (1 <= impact <= 5)%Z
    /\ recommendations !! t = Some recommendation.
Proof.
  pose (ok := fun t : pii_type =>
                match impact_scores !! t, recommendations !! t with
                | Some i, Some _ => (1 <=? i)%Z && (i <=? 5)%Z
                | _, _ => false
                end).
  assert (Hok : forall t, ok t = true ->
                  exists impact recommendation,
                    impact_scores !! t = Some impact
                    /\ (1 <= impact <= 5)%Z
                    /\ recommendations !! t = Some recommendation).
  { intros t0. unfold ok.
    destruct (impact_scores !! t0) as [i|]; [|discriminate].
    destruct (recommendations !! t0) as [rec|]; [|discriminate].
    intros Hb. apply andb_true_iff in Hb as [H1 H2].
    exists i, rec. split; [reflexivity|]. split; [lia | reflexivity]. }
  assert (Hp : forallb ok priority_order = true) by (vm_compute; reflexivity).
  assert (Hk : forallb (fun p : pii_type * string => ok p.1) keyword_items = true)
    by (vm_compute; reflexivity).
  rewrite forallb_forall in Hp, Hk.
  intros [Hin | [keyword Hin]]; apply Hok.
  - apply Hp, list_elem_of_In, Hin.
  - apply (Hk (t, keyword)), list_elem_of_In, Hin.
Qed.

Lemma finding_type_source (df : DataFrame scalar) (f : Finding) :
  f ∈ analyze df ->
  f_pii_type f ∈ priority_order
  \/ (exists keyword, (f_pii_type f, keyword) ∈ keyword_items).
Proof.
  intros Hf. destruct (finding_origin df f Hf) as (c & d & _ & Hcol).
  destruct (analyze_column_shape c d f Hcol)
    as (t & conf & [[-> Hd] | (-> & Hd & _)]); cbn [f_pii_type build_finding].
  - left. destruct (detect_pattern_based_range astype_str regex_search d)
      as [Hn | (t' & r' & Hd' & Hacc & _)]; [congruence|].
    rewrite Hd in Hd'. injection Hd' as <- <-.
    apply (accepted_in_priority_order regex_search _ t conf Hacc).
  - right. destruct (detect_column_name_heuristic_range c)
      as [Hn | (t' & k & c' & Hin & _ & Hd')]; [congruence|].
    rewrite Hd in Hd'. injection Hd' as <- <-.
    exists k. apply sorted_items_keyword_items, Hin.
Qed.

(** X10. Every type the analyzer reports has its own entry in the impact
    table and in the recommendation table: the impact of a row is the
    entry of its type, between 1 and 5, and its recommended action is the
    entry of its type behind the marker of its category. The defaults of
    the two lookups are never what a row shows. *)
Theorem finding_type_is_tabled (df : DataFrame scalar) (f : Finding) :
  f ∈ analyze df ->
  exists impact recommendation,
    impact_scores !! f_pii_type f = Some impact
    /\ f_impact f = impact
    /\ (1 <= impact <= 5)%Z
    /\ recommendations !! f_pii_type f = Some recommendation
    /\ f_recommended_action f
       = urgency_prefix (f_risk_category f) +:+ recommendation.
Proof.
  intros Hf.
  destruct (detector_types_have_entries _ (finding_type_source df f Hf))
    as (i & rec & Hi & Hrange & Hrec).
  destruct (finding_origin df f Hf) as (c & d & _ & Hcol).
  exists i, rec. split; [exact Hi|].
  destruct (analyze_column_shape c d f Hcol)
    as (t & conf & [[-> _] | (-> & _ & _)]);
    cbn [f_pii_type f_impact f_recommended_action f_risk_category build_finding] in *;
    unfold impact_of, recommend_action; rewrite Hi, Hrec; auto.
Qed.

Lemma finding_built (df : DataFrame scalar) (f : Finding) :
  f ∈ analyze df ->
  exists column (column_data : Series scalar) t conf method,
    (column, column_data) ∈ df
    /\ f = build_finding column column_data t conf method.
Proof.
  intros Hf. destruct (finding_origin df f Hf) as (c & d & Hin & Hcol).
  destruct (analyze_column_shape c d f Hcol)
    as (t & conf & [[-> _] | (-> & _ & _)]); eauto 10.
Qed.

Lemma uncapped_score (impact : Z) (uniqueness : Q) :
  (1 <= impact <= 5)%Z -> (0 <= uniqueness)%Q -> (uniqueness <= 1)%Q ->
  (20 * inject_Z impact * uniqueness <= 100)%Q.
Proof.
  intros Hi Hlo Hhi.
  apply Qle_trans with (20 * inject_Z impact * 1)%Q.
  - rewrite !(Qmult_comm (20 * inject_Z impact)).
    apply Qmult_le_compat_r; [exact Hhi|].
    apply Qmult_le_0_compat; [discriminate|]. unfold Qle. simpl. lia.
  - unfold Qle. simpl. lia.
Qed.

Lemma finding_type_is_tabled_aux (df : DataFrame scalar) (f : Finding) :
  f ∈ analyze df ->
  (1 <= f_impact f <= 5)%Z
  /\ exists column (column_data : Series scalar) t conf method,
       f = build_finding column column_data t conf method.
Proof.
  intros Hf.
  destruct (detector_types_have_entries _ (finding_type_source df f Hf))
    as (i & rec & Hi & Hrange & _).
  destruct (finding_built df f Hf) as (c & d & t & conf & m & _ & ->).
  cbn [f_pii_type f_impact build_finding] in *.
  unfold impact_of. rewrite Hi. cbn [default]. split; [exact Hrange|]. eauto 10.
Qed.

(** The numbers of a row: impact, uniqueness, score and category. *)
Lemma finding_numbers (df : DataFrame scalar) (f : Finding) :
  f ∈ analyze df ->
  (1 <= f_impact f <= 5)%Z
  /\ (0 <= f_uniqueness f)%Q /\ (f_uniqueness f <= 1)%Q
  /\ f_risk_score f = (20 * inject_Z (f_impact f) * f_uniqueness f)%Q
  /\ f_risk_category f = categorize_risk (f_risk_score f)
  /\ f_recommended_action f
     = urgency_prefix (f_risk_category f)
       +:+ default generic_recommendation (recommendations !! f_pii_type f).
Proof.
  intros Hf.
  destruct (finding_type_is_tabled_aux df f Hf) as (Hi & c & d & t & conf & m & ->).
  cbn [f_uniqueness f_risk_score f_impact f_risk_category f_recommended_action
       f_pii_type build_finding] in *.
  destruct (calculate_uniqueness_range d) as [Hlo Hhi].
  pose proof (uncapped_score _ _ Hi Hlo Hhi) as Hcap.
  split; [exact Hi|]. split; [exact Hlo|]. split; [exact Hhi|].
  split; [|split; reflexivity].
  unfold calculate_risk_score, py_min.
  apply Qgtb_false in Hcap. rewrite Hcap. reflexivity.
Qed.

(** X11. In every row of the report the uniqueness lies in [0,1], the
    risk score is exactly 20 x impact x uniqueness and lies in [0,100]:
    with the impacts of the table the cap at 100 never cuts anything.
    The category of the row is the category of that score. *)
Theorem finding_risk_score_uncapped (df : DataFrame scalar) (f : Finding) :
  f ∈ analyze df ->
  (0 <= f_uniqueness f)%Q /\ (f_uniqueness f <= 1)%Q
  /\ f_risk_score f = (20 * inject_Z (f_impact f) * f_uniqueness f)%Q
  /\ (0 <= f_risk_score f)%Q /\ (f_risk_score f <= 100)%Q
  /\ f_risk_category f = categorize_risk (f_risk_score f).
Proof.
  intros Hf.
  destruct (finding_numbers df f Hf) as (Hi & Hlo & Hhi & Hscore & Hcat & _).
  split; [exact Hlo|]. split; [exact Hhi|]. split; [exact Hscore|].
  split; [|split; [|exact Hcat]]; rewrite Hscore.
  - apply Qmult_le_0_compat; [|exact Hlo].
    apply Qmult_le_0_compat; [discriminate|]. unfold Qle. simpl. lia.
  - apply uncapped_score; assumption.
Qed.

(** X12. A row is rated High only for a type of impact 4 whose column is
    more than 7/8 unique, or a type of impact 5 whose column is more than
    7/10 unique: a type of impact 3 or less is never rated High. *)
Theorem high_risk_needs_impact_and_uniqueness (df : DataFrame scalar) (f : Finding) :
  f ∈ analyze df ->
  f_risk_category f = "High" ->
  (f_impact f = 4%Z /\ (7 # 8 < f_uniqueness f)%Q)
  \/ (f_impact f = 5%Z /\ (7 # 10 < f_uniqueness f)%Q).
Proof.
  intros Hf Hhigh.
  destruct (finding_numbers df f Hf) as (Hi & Hlo & Hhi & Hscore & Hcat & _).
  rewrite Hcat in Hhigh. apply categorize_risk_spec in Hhigh.
  rewrite Hscore in Hhigh. clear Hscore Hcat Hf.
  destruct (f_uniqueness f) as [p q]. unfold Qlt, Qle in *.
  cbn [Qnum Qden Qmult inject_Z] in *.
  assert (Hcases : (f_impact f = 1 \/ f_impact f = 2 \/ f_impact f = 3
                    \/ f_impact f = 4 \/ f_impact f = 5)%Z) by lia.
  destruct Hcases as [E | [E | [E | [E | E]]]]; rewrite E in *;
    [exfalso; lia | exfalso; lia | exfalso; lia | left | right];
    (split; [reflexivity | lia]).
Qed.

(** X13. The recommended action of a row opens with the URGENT marker
    exactly when its risk score is above 70. *)
Theorem urgent_marker_iff_above_70 (df : DataFrame scalar) (f : Finding) :
  f ∈ analyze df ->
  PyStr.startswith (urgency_prefix "High") (f_recommended_action f) = true
  <-> (70 < f_risk_score f)%Q.
Proof.
  intros Hf.
  destruct (finding_numbers df f Hf) as (_ & _ & _ & _ & Hcat & Hact).
  rewrite Hact, Hcat.
  set (rec := default generic_recommendation (recommendations !! f_pii_type f)).
  destruct (categorize_risk_spec (f_risk_score f)) as (Hlow & Hmed & Hhigh).
  rewrite <- Hhigh. unfold categorize_risk.
  destruct (Qle_bool (f_risk_score f) 30); [split; [vm_compute|]; discriminate|].
  destruct (Qle_bool (f_risk_score f) 70); [split; [vm_compute|]; discriminate|].
  split; [reflexivity|]. intros _. apply startswith_spec. exists rec. reflexivity.
Qed.

Lemma build_finding_column_name (c : string) (d : Series scalar) (t : pii_type)
  (conf : Q) (m : string) :
  f_column_name (build_finding c d t conf m) = c.
Proof. reflexivity. Qed.

Lemma analyze_column_name (c : string) (d : Series scalar) (f : Finding) :
  analyze_col c d = Some f -> f_column_name f = c.
Proof.
  intros Hcol.
  destruct (analyze_column_shape c d f Hcol)
    as (t & conf & [[-> _] | (-> & _ & _)]); reflexivity.
Qed.

Lemma analyze_length_le (df : DataFrame scalar) :
  (length (analyze df) <= length df)%nat.
Proof.
  rewrite (analyze_dataset_omap astype_str regex_search).
  induction df as [|[c d] df IH]; cbn [omap list_omap length fst snd]; [lia|].
  destruct (analyze_col c d); cbn [length]; lia.
Qed.

(** X14. The report follows the dataset: the report of two datasets put
    side by side is the two reports one after the other, so a column is
    judged alone; the flagged column names, in the order of the report,
    are a subsequence of the column names of the dataset, and there are
    no more rows than columns. *)
Theorem report_follows_columns (df1 df2 : DataFrame scalar) :
  analyze (df1 ++ df2) = analyze df1 ++ analyze df2
  /\ sublist (f_column_name <$> analyze df1) (df1.*1)
  /\ (length (analyze df1) <= length df1)%nat.
Proof.
  split; [|split; [|apply analyze_length_le]].
  - rewrite !(analyze_dataset_omap astype_str regex_search). apply omap_app.
  - rewrite (analyze_dataset_omap astype_str regex_search).
    induction df1 as [|[c d] df IH]; cbn [omap list_omap fmap list_fmap fst snd].
    + constructor.
    + destruct (analyze_col c d) as [f|] eqn:E; cbn [fmap list_fmap].
      * rewrite (analyze_column_name c d f E). apply sublist_skip, IH.
      * apply sublist_cons, IH.
Qed.

(** X15. Which detector can flag a column. A column whose dtype fails
    the test of the pattern detector (it is neither object nor string)
    is flagged by its name only, never by its values; a column whose
    name is on the exclusion list is flagged by its values only: the
    exclusion does not shield it from the pattern detector. *)
Theorem flagging_detector_by_dtype_and_name (column : string)
  (column_data : Series scalar) (f : Finding) :
  analyze_col column column_data = Some f ->
  (dtype column_data ∉ ["object"; "string"] ->
   f_detection_method f = "Column Name Heuristic")
  /\ (excluded (normalize column) = true ->
      f_detection_method f = "Pattern-Based").
Proof.
  intros Hcol.
  destruct (analyze_column_shape column column_data f Hcol)
    as (t & conf & [[-> Hd] | (-> & Hd & Hpos)]);
    cbn [f_detection_method build_finding].
  - split; [|reflexivity]. intros Hdtype. exfalso. apply Hdtype.
    exact (detect_pattern_textual column_data t conf Hd).
  - split; [reflexivity|]. intros Hex. exfalso.
    rewrite detect_column_name_heuristic_unfold, Hex in Hd. discriminate.
Qed.

Lemma null_count_dropna (l : list (option scalar)) :
  (length (List.filter (fun v => match v with None => true | Some _ => false end) l)
   + length (dropna l) = length l)%nat.
Proof.
  unfold dropna. induction l as [|[x|] l IH];
    cbn [List.filter omap list_omap id length]; lia.
Qed.

(** X16. In the row of a column the count of distinct values and the
    count of missing values together never exceed the number of cells of
    the column. *)
Theorem distinct_and_missing_counts (column : string)
  (column_data : Series scalar) (f : Finding) :
  analyze_col column column_data = Some f ->
  (f_unique_values f + f_null_count f <= length (values column_data))%nat
  /\ f_data_type f = dtype column_data
  /\ f_column_name f = column.
Proof.
  intros Hcol.
  destruct (analyze_column_shape column column_data f Hcol)
    as (t & conf & [[-> _] | (-> & _ & _)]);
    cbn [f_unique_values f_null_count f_data_type f_column_name build_finding];
    (split; [|split; reflexivity]);
    unfold nunique, null_count;
    pose proof (remove_dups_length_le (dropna (values column_data)));
    pose proof (null_count_dropna (values column_data)); lia.
Qed.

Lemma remove_dups_length_NoDup {A} `{EqDecision A} (l : list A) :
  length (remove_dups l) = length l <-> NoDup l.
Proof.
  split.
  - induction l as [|x l IH]; [constructor|]. cbn [remove_dups].
    destruct (decide_rel elem_of x l) as [Hin | Hnin]; cbn [length].
    + pose proof (remove_dups_length_le l). lia.
    + intros Hlen. apply NoDup_cons. split; [exact Hnin|]. apply IH. lia.
  - induction 1 as [|x l Hnin _ IH]; [reflexivity|]. cbn [remove_dups].
    destruct (decide_rel elem_of x l) as [Hin | _]; [contradiction|].
    cbn [length]. rewrite IH. reflexivity.
Qed.

Lemma dropna_length_full (l : list (option scalar)) :
  length (dropna l) = length l <-> None ∉ l.
Proof.
  unfold dropna. induction l as [|[x|] l IH]; cbn [omap list_omap id length].
  - split; [intros _ Hin; inversion Hin | reflexivity].
  - rewrite not_elem_of_cons. split.
    + intros Hlen. split; [discriminate|]. apply IH. lia.
    + intros [_ Hnin]. f_equal. apply IH, Hnin.
  - pose proof (dropna_length_le l). unfold dropna in *. split.
    + intros Hlen. lia.
    + intros Hnin. exfalso. apply Hnin. left.
Qed.

Lemma dropna_NoDup (l : list (option scalar)) :
  None ∉ l -> (NoDup (dropna l) <-> NoDup l).
Proof.
  intros Hnin.
  assert (Hl : l = Some <$> dropna l).
  { unfold dropna. induction l as [|[x|] l IH]; cbn [omap list_omap id fmap list_fmap].
    - reflexivity.
    - f_equal. apply IH. intros Hin. apply Hnin. right. exact Hin.
    - exfalso. apply Hnin. left. }
  rewrite Hl at 2. symmetry. apply (NoDup_fmap _).
Qed.

Lemma ratio_eq_1 (m n : nat) : n <> 0%nat -> (ratio m n == 1)%Q <-> m = n.
Proof.
  intros Hn. unfold ratio, Qeq. cbn [Qnum Qden].
  rewrite Zpos_of_nat by exact Hn. lia.
Qed.

Lemma ratio_eq_0 (m n : nat) : (ratio m n == 0)%Q <-> m = 0%nat.
Proof. unfold ratio, Qeq. cbn [Qnum Qden]. lia. Qed.

(** X17. For a column that has cells, the uniqueness is 1 exactly when
    no cell is missing and no value occurs twice, and 0 exactly when
    every cell is missing. *)
Theorem uniqueness_extremes (column_data : Series scalar) :
  values column_data <> [] ->
  ((calculate_uniqueness column_data == 1)%Q
   <-> (None ∉ values column_data) /\ NoDup (values column_data))
  /\ ((calculate_uniqueness column_data == 0)%Q
      <-> forall v, v ∈ values column_data -> v = None).
Proof.
  intros Hne. unfold calculate_uniqueness, nunique.
  set (l := values column_data) in *.
  assert (Hlen : length l <> 0%nat) by (destruct l; [congruence | discriminate]).
  destruct (length l =? 0)%nat eqn:E; [apply Nat.eqb_eq in E; congruence|].
  pose proof (remove_dups_length_le (dropna l)) as H1.
  pose proof (dropna_length_le l) as H2.
  split.
  - rewrite ratio_eq_1 by exact Hlen. split.
    + intros Heq.
      assert (Hfull : None ∉ l) by (apply dropna_length_full; lia).
      split; [exact Hfull|]. apply dropna_NoDup; [exact Hfull|].
      apply remove_dups_length_NoDup. lia.
    + intros [Hfull Hnd]. apply dropna_length_full in Hfull as Hd.
      apply (dropna_NoDup l Hfull) in Hnd.
      apply remove_dups_length_NoDup in Hnd. lia.
  - rewrite ratio_eq_0. split.
    + intros Hz [x|] Hin; [|reflexivity]. exfalso.
      apply nil_length_inv in Hz.
      apply (elem_of_dropna l x) in Hin.
      apply elem_of_remove_dups in Hin. rewrite Hz in Hin. inversion Hin.
    + intros Hall. destruct (remove_dups (dropna l)) as [|x r] eqn:Er; [reflexivity|].
      exfalso. assert (Hx : x ∈ remove_dups (dropna l)) by (rewrite Er; left).
      apply elem_of_remove_dups, elem_of_dropna in Hx.
      specialize (Hall _ Hx). discriminate.
Qed.

(** ** The summary of [app.py] *)

Lemma count_category_partition (results_df : list Finding) :
  Forall (fun f => f_risk_category f = "High" \/ f_risk_category f = "Medium"
                   \/ f_risk_category f = "Low") results_df ->
  (count_category results_df "High" + count_category results_df "Medium"
   + count_category results_df "Low" = length results_df)%nat.
Proof.
  unfold count_category. induction 1 as [|f l Hf _ IH]; [reflexivity|].
  cbn [List.filter length].
  destruct Hf as [-> | [-> | ->]]; cbn [String.eqb Ascii.eqb Bool.eqb length];
    cbn [length] in *; lia.
Qed.

Lemma finding_category_values (df : DataFrame scalar) (f : Finding) :
  f ∈ analyze df ->
  f_risk_category f = "High" \/ f_risk_category f = "Medium"
  \/ f_risk_category f = "Low".
Proof.
  intros Hf. destruct (finding_numbers df f Hf) as (_ & _ & _ & _ & -> & _).
  unfold categorize_risk.
  destruct (Qle_bool (f_risk_score f) 30); [auto|].
  destruct (Qle_bool (f_risk_score f) 70); auto.
Qed.

(** X18. When the report has rows, which is when the summary is shown,
    its three metrics High, Medium and Low account for every row once:
    they add up to the number of flagged columns, which is at least one
    and at most the number of columns. *)
Theorem risk_metrics_partition (df : DataFrame scalar) :
  analyze df <> [] ->
  let '(high, med, low) := risk_metrics (analyze df) in
  (high + med + low = length (analyze df))%nat
  /\ (0 < high + med + low)%nat
  /\ (high + med + low <= length df)%nat.
Proof.
  intros Hrows. unfold risk_metrics.
  assert (Hsum : (count_category (analyze df) "High"
                  + count_category (analyze df) "Medium"
                  + count_category (analyze df) "Low" = length (analyze df))%nat).
  { apply count_category_partition, Forall_forall.
    intros f Hf. exact (finding_category_values df f Hf). }
  split; [exact Hsum|]. rewrite Hsum. split.
  - destruct (analyze df); [congruence | cbn [length]; lia].
  - apply analyze_length_le.
Qed.

(** X19. Every slice of the pie chart has one of the three colours of
    [risk_colors], the one of the category of its rows; the grey of the
    default is never drawn. *)
Theorem slice_color_of_finding (df : DataFrame scalar) (f : Finding) :
  f ∈ analyze df ->
  risk_colors !! f_risk_category f = Some (slice_color (f_risk_category f))
  /\ slice_color (f_risk_category f) <> "#9CA3AF"
  /\ (slice_color (f_risk_category f) = "#DC2626" <-> (70 < f_risk_score f)%Q)
  /\ (slice_color (f_risk_category f) = "#16A34A" <-> (f_risk_score f <= 30)%Q).
Proof.
  intros Hf.
  destruct (finding_numbers df f Hf) as (_ & _ & _ & _ & Hcat & _).
  destruct (categorize_risk_spec (f_risk_score f)) as (Hlow & _ & Hhigh).
  rewrite <- Hlow, <- Hhigh, <- Hcat.
  destruct (finding_category_values df f Hf) as [-> | [-> | ->]];
    (split; [vm_compute; reflexivity|]); (split; [vm_compute; discriminate|]);
    split; split; intros; try reflexivity; try discriminate.
Qed.

End DetectorExtras.

(** ** Worked examples, continued *)

Lemma ssn_row_reported :
  ssn_row ∈ analyze_dataset text_cell ssn_only_search example_df.
Proof. rewrite example_df_report. left. Qed.

Lemma audit_df_report :
  analyze_dataset text_cell ssn_only_search audit_df = [notes_row; salary_row].
Proof. vm_compute. reflexivity. Qed.

Lemma pattern_detection_is_earned_witness :
  detect_pattern_based text_cell ssn_only_search ssn_column
  = (Some "SSN", ratio 2 2)
  /\ exists pattern matches,
       ("SSN", pattern) ∈ pii_patterns
       /\ str_contains_sum ssn_only_search pattern
            (string_data_of text_cell ssn_column) = Some matches
       /\ (length (string_data_of text_cell ssn_column) < 2 * matches)%nat.
Proof.
  assert (Hd : detect_pattern_based text_cell ssn_only_search ssn_column
               = (Some "SSN", ratio 2 2)) by (vm_compute; reflexivity).
  split; [exact Hd|].
  destruct (pattern_detection_is_earned text_cell ssn_only_search ssn_column
              "SSN" (ratio 2 2) Hd)
    as (_ & _ & _ & _ & (pattern & matches & Hin & Hs & _ & Hhalf & _) & _).
  exists pattern, matches. auto.
Defined.

(** Every value matches every pattern, and the first one is 240
    characters long: no detection. *)
Lemma long_first_value_blocks_detection_witness :
  detect_pattern_based text_cell (fun _ _ => Some true) long_first_column
  = (None, 0%Q).
Proof.
  eapply long_first_value_blocks_detection.
  - reflexivity.
  - apply Nat.ltb_lt. vm_compute. reflexivity.
Defined.

Lemma finding_type_is_tabled_witness :
  ssn_row ∈ analyze_dataset text_cell ssn_only_search example_df
  /\ exists impact recommendation,
       impact_scores !! f_pii_type ssn_row = Some impact
       /\ f_impact ssn_row = impact
       /\ (1 <= impact <= 5)%Z
       /\ recommendations !! f_pii_type ssn_row = Some recommendation
       /\ f_recommended_action ssn_row
          = urgency_prefix (f_risk_category ssn_row) +:+ recommendation.
Proof.
  split; [exact ssn_row_reported|].
  exact (finding_type_is_tabled text_cell ssn_only_search example_df ssn_row
           ssn_row_reported).
Defined.

Lemma finding_risk_score_uncapped_witness :
  ssn_row ∈ analyze_dataset text_cell ssn_only_search example_df
  /\ f_risk_score ssn_row
     = (20 * inject_Z (f_impact ssn_row) * f_uniqueness ssn_row)%Q
  /\ (f_risk_score ssn_row <= 100)%Q.
Proof.
  split; [exact ssn_row_reported|].
  destruct (finding_risk_score_uncapped text_cell ssn_only_search example_df
              ssn_row ssn_row_reported) as (_ & _ & Hscore & _ & Hcap & _).
  split; [exact Hscore | exact Hcap].
Defined.

Lemma high_risk_needs_impact_and_uniqueness_witness :
  ssn_row ∈ analyze_dataset text_cell ssn_only_search example_df
  /\ f_risk_category ssn_row = "High"
  /\ ((f_impact ssn_row = 4%Z /\ (7 # 8 < f_uniqueness ssn_row)%Q)
      \/ (f_impact ssn_row = 5%Z /\ (7 # 10 < f_uniqueness ssn_row)%Q)).
Proof.
  assert (Hhigh : f_risk_category ssn_row = "High") by (vm_compute; reflexivity).
  split; [exact ssn_row_reported|]. split; [exact Hhigh|].
  exact (high_risk_needs_impact_and_uniqueness text_cell ssn_only_search
           example_df ssn_row ssn_row_reported Hhigh).
Defined.

Lemma urgent_marker_iff_above_70_witness :
  ssn_row ∈ analyze_dataset text_cell ssn_only_search example_df
  /\ (70 < f_risk_score ssn_row)%Q
  /\ PyStr.startswith (urgency_prefix "High") (f_recommended_action ssn_row) = true.
Proof.
  assert (Hscore : (70 < f_risk_score ssn_row)%Q) by (vm_compute; reflexivity).
  split; [exact ssn_row_reported|]. split; [exact Hscore|].
  apply (urgent_marker_iff_above_70 text_cell ssn_only_search example_df ssn_row
           ssn_row_reported), Hscore.
Defined.

Lemma flagging_detector_by_dtype_and_name_witness :
  (analyze_column text_cell ssn_only_search "notes" ssn_column = Some notes_row
   /\ excluded (normalize "notes") = true
   /\ f_detection_method notes_row = "Pattern-Based")
  /\ (analyze_column text_cell ssn_only_search "salary" salary_column
      = Some salary_row
      /\ (dtype salary_column ∉ ["object"; "string"])
      /\ f_detection_method salary_row = "Column Name Heuristic").
Proof.
  assert (Hnotes : analyze_column text_cell ssn_only_search "notes" ssn_column
                   = Some notes_row) by (vm_compute; reflexivity).
  assert (Hsalary : analyze_column text_cell ssn_only_search "salary" salary_column
                    = Some salary_row) by (vm_compute; reflexivity).
  assert (Hex : excluded (normalize "notes") = true) by (vm_compute; reflexivity).
  assert (Hdt : dtype salary_column ∉ ["object"; "string"]).
  { apply (bool_decide_unpack _). vm_compute. reflexivity. }
  split.
  - split; [exact Hnotes|]. split; [exact Hex|].
    apply (flagging_detector_by_dtype_and_name text_cell ssn_only_search "notes"
             ssn_column notes_row Hnotes), Hex.
  - split; [exact Hsalary|]. split; [exact Hdt|].
    apply (flagging_detector_by_dtype_and_name text_cell ssn_only_search "salary"
             salary_column salary_row Hsalary), Hdt.
Defined.

Lemma distinct_and_missing_counts_witness :
  analyze_column text_cell ssn_only_search "full_name" full_name_column
  = Some full_name_row
  /\ (f_unique_values full_name_row + f_null_count full_name_row
      <= length (values full_name_column))%nat.
Proof.
  assert (Hrow : analyze_column text_cell ssn_only_search "full_name"
                   full_name_column = Some full_name_row)
    by (vm_compute; reflexivity).
  split; [exact Hrow|].
  apply (distinct_and_missing_counts text_cell ssn_only_search "full_name"
           full_name_column full_name_row Hrow).
Defined.

Lemma uniqueness_extremes_witness :
  values ssn_column <> []
  /\ (calculate_uniqueness ssn_column == 1)%Q
  /\ ~ (calculate_uniqueness gappy_column == 1)%Q.
Proof.
  split; [discriminate|]. split.
  - apply (uniqueness_extremes ssn_column); [discriminate|]. split.
    + apply (bool_decide_unpack _). vm_compute. reflexivity.
    + apply (bool_decide_unpack _). vm_compute. reflexivity.
  - intros Hone. apply (uniqueness_extremes gappy_column) in Hone; [|discriminate].
    destruct Hone as [Hfull _]. apply Hfull. right. left.
Defined.

Lemma slice_color_of_finding_witness :
  ssn_row ∈ analyze_dataset text_cell ssn_only_search example_df
  /\ slice_color (f_risk_category ssn_row) <> "#9CA3AF".
Proof.
  split; [exact ssn_row_reported|].
  apply (slice_color_of_finding text_cell ssn_only_search example_df ssn_row
           ssn_row_reported).
Defined.

(** No value of the category column matches any pattern. *)
Lemma pattern_detector_no_priority_hit_witness :
  detect_pattern_based text_cell ssn_only_search category_column = (None, 0%Q).
Proof.
  apply pattern_detector_no_priority_hit.
  intros t r _ Hacc. apply (pattern_matches_get ssn_only_search) in Hacc.
  vm_compute in Hacc. discriminate.
Defined.

Lemma risk_metrics_partition_witness :
  analyze_dataset text_cell ssn_only_search example_df <> []
  /\ (count_category (analyze_dataset text_cell ssn_only_search example_df) "High"
      + count_category (analyze_dataset text_cell ssn_only_search example_df) "Medium"
      + count_category (analyze_dataset text_cell ssn_only_search example_df) "Low"
      = length (analyze_dataset text_cell ssn_only_search example_df))%nat.
Proof.
  assert (Hrows : analyze_dataset text_cell ssn_only_search example_df <> [])
    by (rewrite example_df_report; discriminate).
  split; [exact Hrows|].
  exact (proj1 (risk_metrics_partition text_cell ssn_only_search example_df Hrows)).
Defined.
